(** * TPLParserJS: a shallow embedding of the TPL decoder

    The decoder of [src/utils.ts] and [src/tplReader.ts] is a family of
    functions [(file, offset) -> (value, newOffset)] over a Node.js
    [Buffer].  The embedding keeps that shape: a buffer is a list of
    bytes, an offset is a JavaScript number (an integer or [NaN]), and
    the unbounded loops and the recursion of the decoder are driven by
    a fuel argument. *)

From Stdlib Require Import ZArith List String Ascii Bool Lia DecimalString.
From Stdlib.Strings Require Import Byte.
Import ListNotations.

Local Open Scope string_scope.
Local Open Scope list_scope.
Local Open Scope Z_scope.

(** ** JavaScript numbers

    Every number the decoder handles is either an integer or [NaN]
    ([parseInt] of an empty string).  Integers are kept exact: offsets,
    lengths and counts stay far below 2^53, where double arithmetic is
    exact; only [parseInt] of sixteen hex digits can exceed 2^53, and
    it rounds (see [roundDouble]). *)

Inductive number : Type :=
| Int (z : Z)
| NaN.

Coercion Int : Z >-> number.

Module Num.

Definition add (a b : number) : number :=
  match a, b with
  | Int x, Int y => Int (x + y)
  | _, _ => NaN
  end.

Definition sub (a b : number) : number :=
  match a, b with
  | Int x, Int y => Int (x - y)
  | _, _ => NaN
  end.

Definition mul (a b : number) : number :=
  match a, b with
  | Int x, Int y => Int (x * y)
  | _, _ => NaN
  end.

(** [a === b] on numbers: [NaN] equals nothing. *)
Definition strictEq (a b : number) : bool :=
  match a, b with
  | Int x, Int y => x =? y
  | _, _ => false
  end.

(** [a < b]: false as soon as one side is [NaN]. *)
Definition lt (a b : number) : bool :=
  match a, b with
  | Int x, Int y => x <? y
  | _, _ => false
  end.

(** Truthiness, as in [if (length)] and [Boolean(n)]. *)
Definition truthy (a : number) : bool :=
  match a with
  | Int z => negb (z =? 0)
  | NaN => false
  end.

End Num.

Declare Scope num_scope.
Delimit Scope num_scope with num.
Bind Scope num_scope with number.
Infix "+" := Num.add : num_scope.
Infix "-" := Num.sub : num_scope.
Infix "*" := Num.mul : num_scope.
Infix "===" := Num.strictEq (at level 70, no associativity) : num_scope.
Infix "<?" := Num.lt : num_scope.

(** Round-to-nearest-even of a non-negative integer to a 53-bit
    significand: the Number that [parseInt] returns for an exact
    mathematical value [z]. *)
Definition roundDouble (z : Z) : Z :=
  if z <? 2 ^ 53 then z
  else
    let s := Z.log2 z - 52 in
    let q := z / 2 ^ s in
    let r := z mod 2 ^ s in
    let half := 2 ^ (s - 1) in
    if r <? half then q * 2 ^ s
    else if half <? r then (q + 1) * 2 ^ s
    else if Z.even q then q * 2 ^ s
    else (q + 1) * 2 ^ s.

(** ** Buffers and strings *)

Definition Buffer : Type := list byte.

(** [adjustOffset] of Node's [lib/buffer.js]: [NaN] is 0, a negative
    index counts from the end, everything is clipped to the buffer. *)
Definition adjustOffset (offset : number) (length : Z) : Z :=
  match offset with
  | NaN => 0
  | Int z =>
      if z <? 0 then Z.max (z + length) 0
      else Z.min z length
  end.

(** [file.subarray(start, end)]. *)
Definition subarray (file : Buffer) (start end_ : number) : Buffer :=
  let srcLength := Z.of_nat (List.length file) in
  let s := adjustOffset start srcLength in
  let e := adjustOffset end_ srcLength in
  firstn (Z.to_nat (e - s)) (skipn (Z.to_nat s) file).

(** [buf.toString("ascii")]: Node clears the high bit of every byte
    before decoding it. *)
Definition asciiChar (b : byte) : ascii :=
  ascii_of_N (N.land (Byte.to_N b) 127).

Definition toString_ascii (b : Buffer) : string :=
  string_of_list_ascii (map asciiChar b).

(** [buf.toString("hex")]: two lower-case hex digits per byte. *)
Definition hexChar (n : N) : ascii :=
  nth (N.to_nat n) (list_ascii_of_string "0123456789abcdef") "0"%char.

Fixpoint toString_hex (b : Buffer) : string :=
  match b with
  | [] => ""
  | x :: rest =>
      String (hexChar (N.div (Byte.to_N x) 16))
        (String (hexChar (N.modulo (Byte.to_N x) 16)) (toString_hex rest))
  end.

Definition hexValue (c : ascii) : option Z :=
  let n := Z.of_N (N_of_ascii c) in
  if (48 <=? n) && (n <=? 57) then Some (n - 48)
  else if (97 <=? n) && (n <=? 102) then Some (n - 87)
  else if (65 <=? n) && (n <=? 70) then Some (n - 55)
  else None.

(** [parseInt(s, 16)] on the output of [toString("hex")] (no sign, no
    blank, no [0x] prefix can occur there): the digits up to the first
    character that is not one, [NaN] when there is none. *)
Fixpoint parseDigits (acc : Z) (s : string) : Z :=
  match s with
  | EmptyString => acc
  | String c s' =>
      match hexValue c with
      | Some d => parseDigits (16 * acc + d) s'
      | None => acc
      end
  end.

Definition parseInt16 (s : string) : number :=
  match s with
  | EmptyString => NaN
  | String c _ =>
      match hexValue c with
      | Some _ => Int (roundDouble (parseDigits 0 s))
      | None => NaN
      end
  end.

(** [Buffer.from(s, "hex")]: one byte per pair of hex digits, stopping
    at the first pair that is not one. *)
Fixpoint fromHex (s : string) : Buffer :=
  match s with
  | String hi (String lo rest) =>
      match hexValue hi, hexValue lo with
      | Some h, Some l =>
          match Byte.of_N (Z.to_N (16 * h + l)) with
          | Some b => b :: fromHex rest
          | None => []
          end
      | _, _ => []
      end
  | _ => []
  end.

(** [(textHex.match(/00/g) || []).length]: the non-overlapping matches
    of two consecutive ['0'] characters, scanning the hex text from the
    left (a match need not sit on a byte boundary). *)
Fixpoint countMatches00 (s : string) : Z :=
  match s with
  | String a ((String b rest) as tl) =>
      if (Ascii.eqb a "0" && Ascii.eqb b "0")%bool then 1 + countMatches00 rest
      else countMatches00 tl
  | _ => 0
  end.

(** [s.replace(/\x00/g, "")]. *)
Fixpoint removeNul (s : string) : string :=
  match s with
  | EmptyString => EmptyString
  | String c rest =>
      if Ascii.eqb c zero then removeNul rest else String c (removeNul rest)
  end.

(** [s.toLowerCase()] on a string of 7-bit characters. *)
Definition lowerChar (c : ascii) : ascii :=
  let n := N_of_ascii c in
  if (N.leb 65 n && N.leb n 90)%bool then ascii_of_N (n + 32) else c.

Fixpoint toLowerCase (s : string) : string :=
  match s with
  | EmptyString => EmptyString
  | String c rest => String (lowerChar c) (toLowerCase rest)
  end.

(** [s.trim()]: the white space and line terminators below U+0080. *)
Definition isWhiteSpace (c : ascii) : bool :=
  let n := N_of_ascii c in
  (N.leb 9 n && N.leb n 13)%bool || N.eqb n 32.

Fixpoint trimStart (l : list ascii) : list ascii :=
  match l with
  | c :: rest => if isWhiteSpace c then trimStart rest else l
  | [] => []
  end.

Definition trim (s : string) : string :=
  string_of_list_ascii
    (rev (trimStart (rev (trimStart (list_ascii_of_string s))))).

(** [s.slice(begin, end)]; [None] stands for an omitted [end]. *)
Definition sliceIndex (len i : Z) : Z :=
  if i <? 0 then Z.max (len + i) 0 else Z.min i len.

Definition slice (s : string) (begin : Z) (end_ : option Z) : string :=
  let len := Z.of_nat (String.length s) in
  let from := sliceIndex len begin in
  let to := match end_ with
            | Some e => sliceIndex len e
            | None => len
            end in
  substring (Z.to_nat from) (Z.to_nat (to - from)) s.

(** [s.endsWith(suffix)]. *)
Definition endsWith (s suffix : string) : bool :=
  let n := String.length s in
  let m := String.length suffix in
  (Nat.leb m n && String.eqb (substring (n - m) m s) suffix)%bool.

(** [s.split("=").pop()]: what follows the last ["="], the whole
    string when there is none. *)
Fixpoint afterLast (sep : ascii) (cur : string) (s : string) : string :=
  match s with
  | EmptyString => cur
  | String c rest =>
      if Ascii.eqb c sep then afterLast sep rest rest
      else afterLast sep cur rest
  end.

Definition splitPop (s : string) : string := afterLast "="%char s s.

(** [buf.lastIndexOf(needle)] for a non-empty [needle]: the greatest
    index at which [needle] lies wholly inside [buf], or -1. *)
Fixpoint startsWith (hay needle : Buffer) : bool :=
  match needle, hay with
  | [], _ => true
  | n :: needle', h :: hay' => Byte.eqb n h && startsWith hay' needle'
  | _ :: _, [] => false
  end.

Fixpoint lastIndexFrom (file needle : Buffer) (i : nat) : Z :=
  if startsWith (skipn i file) needle then Z.of_nat i
  else match i with
       | O => -1
       | S j => lastIndexFrom file needle j
       end.

Definition lastIndexOf (file needle : Buffer) : Z :=
  if (List.length needle <=? List.length file)%nat
  then lastIndexFrom file needle (List.length file - List.length needle)
  else -1.

(** ** Results

    [Throw] is a JavaScript exception, [Timeout] is the embedding
    running out of fuel: a call that gives [Timeout] for every fuel
    does not return.  The limits of the engine (call stack, memory,
    string length) are not modelled. *)

Inductive res (A : Type) : Type :=
| Ok (a : A)
| Throw
| Timeout.

Arguments Ok {A} a.
Arguments Throw {A}.
Arguments Timeout {A}.

Definition bind {A B : Type} (m : res A) (k : A -> res B) : res B :=
  match m with
  | Ok a => k a
  | Throw => Throw
  | Timeout => Timeout
  end.

Notation "x <- m ;; k" := (bind m (fun x => k))
  (at level 61, m at next level, right associativity).
Notation "' pat <- m ;; k" := (bind m (fun x => match x with pat => k end))
  (at level 61, pat pattern, m at next level, right associativity).

(** ** [src/utils.ts] *)

Definition extractLabel (file : Buffer) (offset : number) : Buffer * number :=
  let labelLength :=
    parseInt16 (toString_hex (subarray file offset (offset + 4)%num)) in
  let offset := (offset + 4)%num in
  if (labelLength === 0)%num
  then (subarray file offset (offset + 4)%num, (offset + 4)%num)
  else (subarray file offset (offset + labelLength)%num,
        (offset + labelLength)%num).

Definition placeholders : list string :=
  ["GlbO"; "Objc"; "VlLs"; "dou"; "UntF"; "TEXT"; "enum"; "long"; "comp";
   "bool"; "type"; "GlbC"; "obj "; "alis"; "tdta"].

(** The [while (true)] loop of [extractUntilPlaceholder]; [prefix] is
    the text extracted so far. *)
Fixpoint extractUntilPlaceholder (fuel : nat) (file : Buffer)
    (offset : number) (prefix : string) : res (string * string * number) :=
  match fuel with
  | O => Timeout
  | S fuel =>
      let extractedText :=
        (prefix ++ toString_ascii (subarray file offset (offset + 1)%num))%string in
      let offset := (offset + 1)%num in
      if existsb (fun placeholder => endsWith extractedText placeholder)
           placeholders
      then
        let placeholderLength := Z.of_nat (String.length (nth 0 placeholders "")) in
        Ok (slice extractedText 0 (Some (- placeholderLength)),
            slice extractedText (- placeholderLength) None,
            offset)
      else extractUntilPlaceholder fuel file offset extractedText
  end.

Definition extractBoolean (file : Buffer) (offset : number) : bool * number :=
  let boolValue :=
    Num.truthy (parseInt16 (toString_hex (subarray file offset (offset + 1)%num))) in
  (boolValue, (offset + 1)%num).

Definition extractEnum (file : Buffer) (offset : number)
    : (string * string) * number :=
  let classIdLength :=
    parseInt16 (toString_hex (subarray file offset (offset + 4)%num)) in
  let offset := (offset + 4)%num in
  let classIdLength :=
    if (classIdLength === 0)%num then Int 4 else classIdLength in
  let classId :=
    toString_ascii (subarray file offset (offset + classIdLength)%num) in
  let offset := (offset + classIdLength)%num in
  let valueLength :=
    parseInt16 (toString_hex (subarray file offset (offset + 4)%num)) in
  let offset := (offset + 4)%num in
  let valueLength :=
    if (valueLength === 0)%num then Int 4 else valueLength in
  let value :=
    toString_ascii (subarray file offset (offset + valueLength)%num) in
  let offset := (offset + valueLength)%num in
  ((classId, value), offset).

Definition extractInteger (file : Buffer) (offset : number) : number * number :=
  let value :=
    parseInt16 (toString_hex (subarray file offset (offset + 4)%num)) in
  (value, (offset + 4)%num).

Definition extractLargeInteger (file : Buffer) (offset : number)
    : number * number :=
  let value :=
    parseInt16 (toString_hex (subarray file offset (offset + 8)%num)) in
  (value, (offset + 8)%num).

Definition extractClass (file : Buffer) (offset : number) : string * number :=
  let '(labelBuffer, newOffset) := extractLabel file offset in
  (toString_ascii labelBuffer, newOffset).

Definition validateTplHeader (file : Buffer) (offset : number)
    : bool * number :=
  let headerSignature :=
    toLowerCase (toString_ascii (subarray file offset (offset + 4)%num)) in
  let offset := (offset + 4)%num in
  if negb (headerSignature =? "8btp")%string then (false, offset)
  else
    let offset := (offset + 8)%num in
    let photoshopSignature :=
      toLowerCase (toString_ascii (subarray file offset (offset + 4)%num)) in
    let offset := (offset + 4)%num in
    if negb (photoshopSignature =? "8bim")%string then (false, offset)
    else (true, offset).

Definition toolDataSignature : string := "8BIMtptp".

Definition moveToToolDataSection (file : Buffer) : bool * number :=
  let lastOccurrencePos :=
    lastIndexOf file (list_byte_of_string toolDataSignature) in
  if negb (lastOccurrencePos =? -1)
  then (true, Int (lastOccurrencePos + 16))
  else (false, Int 0).

(** [i.toString()] for a loop index. *)
Definition indexToString (i : Z) : string :=
  DecimalString.NilZero.string_of_uint (N.to_uint (Z.to_N i)).

(** [Buffer.from(s, "ascii")]. *)
Definition bufferFromAscii (s : string) : Buffer := list_byte_of_string s.

(** The keys of the [typeHandlers] table of [extractOsTypeValue].  The
    table is a plain object, but no name inherited from
    [Object.prototype] has four characters or fewer, so looking up a
    tag read from the buffer finds exactly these. *)
Inductive osType : Type :=
| Objc | VlLs | doub | UntF | TEXT | enum | long | comp | bool_.

Definition typeHandlers (propertyType : string) : option osType :=
  if (propertyType =? "Objc")%string then Some Objc
  else if (propertyType =? "VlLs")%string then Some VlLs
  else if (propertyType =? "doub")%string then Some doub
  else if (propertyType =? "UntF")%string then Some UntF
  else if (propertyType =? "TEXT")%string then Some TEXT
  else if (propertyType =? "enum")%string then Some enum
  else if (propertyType =? "long")%string then Some long
  else if (propertyType =? "comp")%string then Some comp
  else if (propertyType =? "bool")%string then Some bool_
  else None.

Definition unsupportedTypes : list string :=
  ["type"; "GlbC"; "obj "; "alis"; "tdta"].

Section Decoder.

(** [struct.unpack(">d", bytes)[0]] comes from the python-struct
    package, which is not part of the repository: it is a parameter
    of the decoder, [None] standing for a call that throws. *)
Variable double : Type.
Variable unpack_d : Buffer -> option double.

(** The decoded values ([any] in the TypeScript signatures).  A
    property, [Record<string, any>], is an object with its own keys in
    insertion order; an entry of a [VlLs] list is [property[i]], an
    object [{type, value}] or [undefined]. *)
Inductive any : Type :=
| Properties (properties : list (list (string * typed)))
| Items (items : list (option typed))
| Double (d : double)
| UnitFloat (unit : string) (d : double)
| Text (s : string)
| Enum (classId : string) (value : string)
| Number (n : number)
| Boolean (b : bool)
with typed : Type :=
| Typed (type : string) (value : any).

Definition Property : Type := list (string * typed).

(** [property[key]] on an object that has only own keys. *)
Fixpoint getOwn {A : Type} (obj : list (string * A)) (key : string)
    : option A :=
  match obj with
  | [] => None
  | (k, v) :: rest => if (k =? key)%string then Some v else getOwn rest key
  end.

(** What [extractOsTypeValue] returns beside the offset. *)
Record OsTypeValue : Type := {
  name : string;
  os_type : string;
  value : any
}.

Definition extractDouble (file : Buffer) (offset : number)
    : res (double * number) :=
  match unpack_d (subarray file offset (offset + 8)%num) with
  | Some value => Ok (value, (offset + 8)%num)
  | None => Throw
  end.

Definition extractUnitFloat (file : Buffer) (offset : number)
    : res ((string * double) * number) :=
  let unit := toString_ascii (subarray file offset (offset + 4)%num) in
  let offset := (offset + 4)%num in
  match unpack_d (subarray file offset (offset + 8)%num) with
  | Some value => Ok ((unit, value), (offset + 8)%num)
  | None => Throw
  end.

(** The mutually recursive part of [src/utils.ts].  Every call and
    every loop iteration takes one unit of fuel.  [forProperties] is
    the [for] loop over [extractProperty] (in [extractObjectClass] and
    in [readTool]), [forList] the one of [extractList], and
    [whileText] the [while (length === 0)] loop of [extractText]. *)
Fixpoint extractProperty (fuel : nat) (file : Buffer) (offset : number)
    {struct fuel} : res (Property * number) :=
  match fuel with
  | O => Timeout
  | S fuel =>
      let '(propertyName, newOffset) := extractLabel file offset in
      let offset := newOffset in
      if negb (toString_ascii propertyName =? "null")%string
      then extractPropertyValue fuel file offset propertyName
      else Ok ([], offset)
  end

with extractPropertyValue (fuel : nat) (file : Buffer) (offset : number)
    (propertyName : Buffer) {struct fuel} : res (Property * number) :=
  match fuel with
  | O => Timeout
  | S fuel =>
      let propertyType :=
        toString_ascii (subarray file offset (offset + 4)%num) in
      let offset := (offset + 4)%num in
      '(propertyValue, newOffset) <-
        extractOsTypeValue fuel file offset
          (trim (toString_ascii propertyName)) propertyType ;;
      match propertyValue with
      | None => Ok ([], newOffset)
      | Some propertyValue =>
          Ok ([(name propertyValue,
                Typed (os_type propertyValue) (value propertyValue))],
              newOffset)
      end
  end

with extractOsTypeValue (fuel : nat) (file : Buffer) (offset : number)
    (propertyName propertyType : string) {struct fuel}
    : res (option OsTypeValue * number) :=
  match fuel with
  | O => Timeout
  | S fuel =>
      match typeHandlers propertyType with
      | Some handler =>
          '(value, newOffset) <-
            match handler with
            | Objc =>
                '(v, o) <- extractObjectClass fuel file offset propertyName ;;
                Ok (Properties v, o)
            | VlLs =>
                '(v, o) <- extractList fuel file offset ;;
                Ok (Items v, o)
            | doub =>
                '(v, o) <- extractDouble file offset ;;
                Ok (Double v, o)
            | UntF =>
                '(v, o) <- extractUnitFloat file offset ;;
                Ok (UnitFloat (fst v) (snd v), o)
            | TEXT =>
                '(v, o) <- extractText fuel file offset ;;
                Ok (Text v, o)
            | enum =>
                let '(v, o) := extractEnum file offset in
                Ok (Enum (fst v) (snd v), o)
            | long =>
                let '(v, o) := extractInteger file offset in
                Ok (Number v, o)
            | comp =>
                let '(v, o) := extractLargeInteger file offset in
                Ok (Number v, o)
            | bool_ =>
                let '(v, o) := extractBoolean file offset in
                Ok (Boolean v, o)
            end ;;
          Ok (Some {| name := propertyName;
                      os_type := propertyType;
                      value := value |},
              newOffset)
      | None =>
          if existsb (String.eqb propertyType) unsupportedTypes
          then Ok (None, offset)
          else
            '(nameFound, newPropertyType, newOffset) <-
              extractUntilPlaceholder fuel file offset
                (propertyName ++ propertyType)%string ;;
            extractOsTypeValue fuel file newOffset nameFound newPropertyType
      end
  end

with extractObjectClass (fuel : nat) (file : Buffer) (offset : number)
    (name : string) {struct fuel} : res (list Property * number) :=
  match fuel with
  | O => Timeout
  | S fuel =>
      '(offset, propertyCount) <-
        (if (name =? "Grad")%string
         then
           '(_, offset) <- extractText fuel file offset ;;
           Ok (offset, Int 4)
         else
           let offset := (offset + 6)%num in
           let offset := snd (extractLabel file offset) in
           let propertyCount :=
             parseInt16
               (toString_hex (subarray file offset (offset + 4)%num)) in
           Ok ((offset + 4)%num, propertyCount)) ;;
      forProperties fuel file offset 0 propertyCount []
  end

with forProperties (fuel : nat) (file : Buffer) (offset : number)
    (i : Z) (propertyCount : number) (properties : list Property)
    {struct fuel} : res (list Property * number) :=
  match fuel with
  | O => Timeout
  | S fuel =>
      if (Int i <? propertyCount)%num
      then
        '(property, newOffset) <- extractProperty fuel file offset ;;
        forProperties fuel file newOffset (i + 1) propertyCount
          (properties ++ [property])
      else Ok (properties, offset)
  end

with extractText (fuel : nat) (file : Buffer) (offset : number)
    {struct fuel} : res (string * number) :=
  match fuel with
  | O => Timeout
  | S fuel =>
      let length :=
        parseInt16 (toString_hex (subarray file offset (offset + 4)%num)) in
      let offset := (offset + 4)%num in
      '(length, offset) <- whileText fuel file length offset ;;
      let textHex :=
        toString_hex
          (subarray file offset (offset + length * 2)%num) in
      let text := removeNul (toString_ascii (fromHex textHex)) in
      let offset := (offset + length * 2)%num in
      Ok (text, offset)
  end

with whileText (fuel : nat) (file : Buffer) (length offset : number)
    {struct fuel} : res (number * number) :=
  match fuel with
  | O => Timeout
  | S fuel =>
      if (length === 0)%num
      then
        let offset := (offset - 4)%num in
        '(_, offset) <- extractProperty fuel file offset ;;
        let length :=
          parseInt16
            (toString_hex (subarray file offset (offset + 4)%num)) in
        let offset := (offset + 4)%num in
        if Num.truthy length
        then
          let textHex :=
            toString_hex
              (subarray file offset (offset + length * 2)%num) in
          let numZeros := countMatches00 textHex in
          if (Int numZeros === length + 1)%num
          then Ok (length, offset)
          else whileText fuel file (Int 0) offset
        else whileText fuel file length offset
      else Ok (length, offset)
  end

with extractList (fuel : nat) (file : Buffer) (offset : number)
    {struct fuel} : res (list (option typed) * number) :=
  match fuel with
  | O => Timeout
  | S fuel =>
      let count :=
        parseInt16 (toString_hex (subarray file offset (offset + 4)%num)) in
      let offset := (offset + 4)%num in
      forList fuel file offset 0 count []
  end

with forList (fuel : nat) (file : Buffer) (offset : number)
    (i : Z) (count : number) (properties : list (option typed))
    {struct fuel} : res (list (option typed) * number) :=
  match fuel with
  | O => Timeout
  | S fuel =>
      if (Int i <? count)%num
      then
        let iAsString := indexToString i in
        '(property, newOffset) <-
          extractPropertyValue fuel file offset (bufferFromAscii iAsString) ;;
        forList fuel file newOffset (i + 1) count
          (properties ++ [getOwn property iAsString])
      else Ok (properties, offset)
  end.

(** ** [src/tplReader.ts] *)

Inductive ToolData : Type :=
| mkToolData (name : string) (properties : list Property).

(** [TPLData]: the tool types with their tools, in insertion order.
    (When it enumerates the keys, the engine puts those that are
    array indices first; nothing here depends on the order.) *)
Definition TPLData : Type := list (string * list ToolData).

(** The names a plain object inherits from [Object.prototype]; each
    of them is truthy and none is an array. *)
Definition inheritedKeys : list string :=
  ["constructor"; "__defineGetter__"; "__defineSetter__"; "hasOwnProperty";
   "__lookupGetter__"; "__lookupSetter__"; "isPrototypeOf";
   "propertyIsEnumerable"; "toString"; "valueOf"; "__proto__";
   "toLocaleString"].

(** [if (!tpl[toolType]) { tpl[toolType] = []; }] *)
Definition initToolType (tpl : TPLData) (toolType : string) : TPLData :=
  match getOwn tpl toolType with
  | Some _ => tpl
  | None =>
      if existsb (String.eqb toolType) inheritedKeys then tpl
      else tpl ++ [(toolType, [])]
  end.

Fixpoint pushOwn (tpl : TPLData) (toolType : string) (tool : ToolData)
    : TPLData :=
  match tpl with
  | [] => []
  | (k, tools) :: rest =>
      if (k =? toolType)%string then (k, tools ++ [tool]) :: rest
      else (k, tools) :: pushOwn rest toolType tool
  end.

(** [tpl[toolType].push(tool)]: a [TypeError] when [tpl[toolType]] is
    an inherited member instead of an array. *)
Definition pushTool (tpl : TPLData) (toolType : string) (tool : ToolData)
    : res TPLData :=
  match getOwn tpl toolType with
  | Some _ => Ok (pushOwn tpl toolType tool)
  | None => Throw
  end.

(** The [while (true)] loop of [readTool], from the state [tpl]. *)
Fixpoint whileTool (fuel : nat) (file : Buffer) (offset : number)
    (tpl : TPLData) : res (TPLData * number) :=
  match fuel with
  | O => Timeout
  | S fuel =>
      '(toolName, newOffset) <- extractText fuel file offset ;;
      let offset := newOffset in
      let offset := (offset + 10)%num in
      let '(toolTypeBuffer, newOffset2) := extractLabel file offset in
      let toolType := trim (toString_ascii toolTypeBuffer) in
      let offset := newOffset2 in
      let tpl := initToolType tpl toolType in
      let count :=
        parseInt16 (toString_hex (subarray file offset (offset + 4)%num)) in
      let offset := (offset + 4)%num in
      '(properties, offset) <- forProperties fuel file offset 0 count [] ;;
      tpl <- pushTool tpl toolType
               (mkToolData (splitPop toolName) properties) ;;
      if negb (Nat.eqb (List.length (subarray file offset (offset + 4)%num)) 4)
      then Ok (tpl, offset)
      else whileTool fuel file offset tpl
  end.

Definition readTool (fuel : nat) (file : Buffer) (offset : number)
    : res (TPLData * number) :=
  whileTool fuel file offset [].

(** [readTpl], from the bytes that [readFileSync] returned. *)
Definition readTpl (fuel : nat) (file : Buffer) : res TPLData :=
  let '(isValid, offset) := validateTplHeader file 0 in
  if negb isValid then Ok []
  else
    let '(moved, newOffset) := moveToToolDataSection file in
    if negb moved then Ok []
    else
      '(tplData, _) <- readTool fuel file newOffset ;;
      Ok tplData.

End Decoder.

Arguments Properties {double} properties.
Arguments Items {double} items.
Arguments Double {double} d.
Arguments UnitFloat {double} unit d.
Arguments Text {double} s.
Arguments Enum {double} classId value.
Arguments Number {double} n.
Arguments Boolean {double} b.
Arguments Typed {double} type value.
Arguments mkToolData {double} name properties.
Arguments name {double} o.
Arguments os_type {double} o.
Arguments value {double} o.
Arguments extractDouble {double} unpack_d file offset.
Arguments extractUnitFloat {double} unpack_d file offset.
Arguments extractProperty {double} unpack_d fuel file offset.
Arguments extractPropertyValue {double} unpack_d fuel file offset propertyName.
Arguments extractOsTypeValue {double} unpack_d fuel file offset
  propertyName propertyType.
Arguments extractObjectClass {double} unpack_d fuel file offset name.
Arguments forProperties {double} unpack_d fuel file offset i propertyCount
  properties.
Arguments extractText {double} unpack_d fuel file offset.
Arguments whileText {double} unpack_d fuel file length offset.
Arguments extractList {double} unpack_d fuel file offset.
Arguments forList {double} unpack_d fuel file offset i count properties.
Arguments initToolType {double} tpl toolType.
Arguments pushOwn {double} tpl toolType tool.
Arguments pushTool {double} tpl toolType tool.
Arguments whileTool {double} unpack_d fuel file offset tpl.
Arguments readTool {double} unpack_d fuel file offset.
Arguments readTpl {double} unpack_d fuel file.

(** ** Sample inputs *)

(** A stand-in for python-struct in the sample runs: the double is
    kept as its eight bytes, and a shorter read throws. *)
Definition unpackBytes (b : Buffer) : option Buffer :=
  if Nat.eqb (List.length b) 8 then Some b else None.

(** A buffer whose label at offset 14 has the length field 0. *)
Definition shortLabelBuffer : Buffer :=
  (list_byte_of_string "abcdefghijklmn"
   ++ [x00; x00; x00; x00; x42; x72; x73; x68; x00])%list.

(** A property whose name is ["null"], with a 4-byte length field. *)
Definition nullPropertyBuffer : Buffer :=
  ([x00; x00; x00; x04] ++ list_byte_of_string "null"
   ++ list_byte_of_string "long")%list.

(** A property value with a recognized but unsupported tag. *)
Definition unsupportedBuffer : Buffer :=
  (list_byte_of_string "tdta" ++ [x00; x01; x02; x03])%list.

(** Two tool-section markers, at offsets 10 and 200. *)
Definition twoMarkerBuffer : Buffer :=
  (repeat x00 10 ++ list_byte_of_string toolDataSignature
   ++ repeat x00 182 ++ list_byte_of_string toolDataSignature)%list.

(** A header whose first byte is ['8'] with the high bit set. *)
Definition highBitHeader : Buffer :=
  ([xb8] ++ list_byte_of_string "BTP" ++ repeat x00 8
   ++ list_byte_of_string "8BIM")%list.

(** A well-formed header followed by nothing. *)
Definition plainHeader : Buffer :=
  (list_byte_of_string "8Btp" ++ repeat xff 8
   ++ list_byte_of_string "8bIM")%list.

(** A text field of two characters. *)
Definition directTextBuffer : Buffer :=
  [x00; x00; x00; x02; x00; x48; x00; x69].

(** A [VlLs] value of three entries: [type], [long] 7 and [tdta]. *)
Definition holesBuffer : Buffer :=
  ([x00; x00; x00; x03] ++ list_byte_of_string "type"
   ++ list_byte_of_string "long" ++ [x00; x00; x00; x07]
   ++ list_byte_of_string "tdta")%list.

(** The two bytes per character of a text field. *)
Definition utf16be (s : string) : Buffer :=
  flat_map (fun b => [x00; b]) (list_byte_of_string s).

(** The minimal file: a header, the tool-section marker and 8 filler
    bytes, then one tool named ["Default=MyBrush"] of type [Brsh] with
    the single property [Size], a [long] of value 42. *)
Definition minimalBuffer : Buffer :=
  (list_byte_of_string "8BTP" ++ repeat x00 8 ++ list_byte_of_string "8BIM"
   ++ list_byte_of_string "8BIMtptp" ++ repeat x00 8
   ++ [x00; x00; x00; x0f] ++ utf16be "Default=MyBrush"
   ++ repeat x00 10
   ++ [x00; x00; x00; x04] ++ list_byte_of_string "Brsh"
   ++ [x00; x00; x00; x01]
   ++ [x00; x00; x00; x04] ++ list_byte_of_string "Size"
   ++ list_byte_of_string "long" ++ [x00; x00; x00; x2a])%list.

(** ** Specification predicates *)

(** The tool-section marker lies in [file] at index [i]. *)
Definition occursAt (file : Buffer) (i : nat) : Prop :=
  firstn 8 (skipn i file) = list_byte_of_string toolDataSignature.

(** The code [n] is the code of the character [c], or of its upper
    case when [c] is a small letter. *)
Definition letterCode (n : N) (c : ascii) : Prop :=
  n = N_of_ascii c \/
  ((97 <= N_of_ascii c <= 122)%N /\ (n + 32)%N = N_of_ascii c).

(** The bytes equal the ASCII literal [s] up to letter case. *)
Definition caseInsensitiveEqual (bytes : Buffer) (s : string) : Prop :=
  Forall2 (fun b c => letterCode (Byte.to_N b) c)
    bytes (list_ascii_of_string s).

(** The same, on the bytes with their high bit cleared. *)
Definition asciiCaseInsensitiveEqual (bytes : Buffer) (s : string) : Prop :=
  Forall2 (fun b c => letterCode (N.land (Byte.to_N b) 127) c)
    bytes (list_ascii_of_string s).

(** [past o o']: the offset [o'] returned from the offset [o] is
    [NaN], or both are integers and [o'] is the greater one. *)
Definition past (o o' : number) : Prop :=
  match o, o' with
  | _, NaN => True
  | Int a, Int b => a < b
  | NaN, Int _ => False
  end.

(** [notBefore o o']: as [past], but [o'] may equal [o]. *)
Definition notBefore (o o' : number) : Prop :=
  match o, o' with
  | _, NaN => True
  | Int a, Int b => a <= b
  | NaN, Int _ => False
  end.

(** A property of what a call returns, when it returns. *)
Definition afterP {A : Type} (P : A -> Prop) (r : res A) : Prop :=
  match r with
  | Ok a => P a
  | Throw => True
  | Timeout => True
  end.

(** A property of the offset a call returns, when it returns. *)
Definition after {A : Type} (P : number -> Prop) (r : res (A * number))
    : Prop :=
  afterP (fun p => P (snd p)) r.

(** A length as [parseInt] gives it, and one that ends the loop of
    [extractText]. *)
Definition lengthRead (l : number) : Prop :=
  match l with
  | Int z => 0 <= z
  | NaN => True
  end.

Definition lengthAccepted (l : number) : Prop :=
  match l with
  | Int z => 0 < z
  | NaN => True
  end.

(** What the loop of [extractText] returns: an offset not before the
    one it started from, and a length that is not 0. *)
Definition whileTextOk (offset : number) (p : number * number) : Prop :=
  lengthAccepted (fst p) /\ notBefore offset (snd p).

(** The test of the scan: the text ends with one of the placeholders. *)
Definition endsWithPlaceholder (text : string) : bool :=
  existsb (fun placeholder => endsWith text placeholder) placeholders.

(** [refines r1 r2]: the run [r2], with more fuel than [r1], agrees
    with [r1] unless [r1] ran out of fuel. *)
Definition refines {A : Type} (r1 r2 : res A) : Prop :=
  r1 = Timeout \/ r1 = r2.

(** An object value: 6 reserved bytes, the class label [Brsh], the
    count 2, the property [Size] and a property named [null]. *)
Definition objectBuffer : Buffer :=
  (repeat x00 6 ++ [x00; x00; x00; x00] ++ list_byte_of_string "Brsh"
   ++ [x00; x00; x00; x02]
   ++ [x00; x00; x00; x04] ++ list_byte_of_string "Size"
   ++ list_byte_of_string "long" ++ [x00; x00; x00; x2a]
   ++ [x00; x00; x00; x00] ++ list_byte_of_string "null")%list.

(** The property [Size], a [long] of value 42. *)
Definition sizeBuffer : Buffer :=
  ([x00; x00; x00; x04] ++ list_byte_of_string "Size"
   ++ list_byte_of_string "long" ++ [x00; x00; x00; x2a])%list.

(** Six bytes to scan, from offset 2: [AB] and then the tag [long]. *)
Definition scanBuffer : Buffer := list_byte_of_string "..ABlong".

(** An enum: class id ["Styl"] behind a length field 0, value
    ["solid"] behind a length field 5. *)
Definition enumBuffer : Buffer :=
  ([x00; x00; x00; x00] ++ list_byte_of_string "Styl"
   ++ [x00; x00; x00; x05] ++ list_byte_of_string "solid")%list.

(** The unsigned big-endian value of a byte string, from [acc]. *)
Fixpoint bigEndian (acc : Z) (b : Buffer) : Z :=
  match b with
  | [] => acc
  | x :: rest => bigEndian (256 * acc + Z.of_N (Byte.to_N x)) rest
  end.

(** The length that [extractEnum] uses for a field that holds [L]. *)
Definition enumLength (L : Z) : Z := if L =? 0 then 4 else L.

(** The type tag [t] names the shape of the value [v], as
    [extractOsTypeValue] pairs them. *)
Definition tagMatches {double : Type} (t : string) (v : any double) : Prop :=
  match v with
  | Properties _ => t = "Objc"
  | Items _ => t = "VlLs"
  | Double _ => t = "doub"
  | UnitFloat _ _ => t = "UntF"
  | Text _ => t = "TEXT"
  | Enum _ _ => t = "enum"
  | Number _ => t = "long" \/ t = "comp"
  | Boolean _ => t = "bool"
  end.

(** Every [{type, value}] inside a decoded value, at any depth, has a
    type tag that names the shape of its value, and every property
    object has at most one key. *)
Fixpoint wellTagged {double : Type} (v : any double) : Prop :=
  match v with
  | Properties properties =>
      (fix objects (l : list (list (string * typed double))) : Prop :=
         match l with
         | [] => True
         | property :: rest =>
             (List.length property <= 1)%nat /\
             (fix entries (q : list (string * typed double)) : Prop :=
                match q with
                | [] => True
                | (_, t) :: q' => typedOk t /\ entries q'
                end) property /\
             objects rest
         end) properties
  | Items items =>
      (fix holes (l : list (option (typed double))) : Prop :=
         match l with
         | [] => True
         | None :: rest => holes rest
         | Some t :: rest => typedOk t /\ holes rest
         end) items
  | _ => True
  end
with typedOk {double : Type} (t : typed double) : Prop :=
  match t with
  | Typed type value => tagMatches type value /\ wellTagged value
  end.

(** The same, for one property object, for a list of them and for the
    entries of a [VlLs] list. *)
Definition propertyOk {double : Type} (p : Property double) : Prop :=
  (List.length p <= 1)%nat /\ Forall (fun e => typedOk (snd e)) p.

Definition itemOk {double : Type} (i : option (typed double)) : Prop :=
  match i with
  | Some t => typedOk t
  | None => True
  end.

(** A character that [extractText] can return: not NUL, below 128. *)
Definition textChar (c : ascii) : Prop :=
  c <> zero /\ (N_of_ascii c < 128)%N.

(** A tool as [readTool] builds it: a name of text characters without
    ["="], and well-tagged properties. *)
Definition toolOk {double : Type} (t : ToolData double) : Prop :=
  match t with
  | mkToolData name properties =>
      ~ In "="%char (list_ascii_of_string name) /\
      Forall textChar (list_ascii_of_string name) /\
      Forall propertyOk properties
  end.

(** An entry of the document: tools under a key that is not a name
    inherited from [Object.prototype]. *)
Definition entryOk {double : Type} (kv : string * list (ToolData double))
    : Prop :=
  snd kv <> [] /\ ~ In (fst kv) inheritedKeys /\ Forall toolOk (snd kv).

Definition documentOk {double : Type} (tpl : TPLData double) : Prop :=
  NoDup (map fst tpl) /\ Forall entryOk tpl.

(** A file of 20 bytes whose tool section is empty: the marker sits on
    the second signature of the header. *)
Definition emptySectionBuffer : Buffer :=
  list_byte_of_string "8BTP........8BIMtptp".

(** A tool named ["T"] whose type label is ["toString"], with no
    property. *)
Definition inheritedTypeBuffer : Buffer :=
  ([x00; x00; x00; x01; x00; x54] ++ repeat x00 10
   ++ [x00; x00; x00; x08] ++ list_byte_of_string "toString"
   ++ [x00; x00; x00; x00])%list.

(** ** Facts about numbers, buffers and strings *)

Lemma add_Int (a b : Z) : (Int a + Int b)%num = Int (a + b).
Proof. reflexivity. Qed.

(** Between two non-negative indices, [subarray] is the usual slice. *)
Lemma subarray_slice (file : Buffer) (a b : Z) :
  0 <= a -> a <= b ->
  subarray file (Int a) (Int b)
  = firstn (Z.to_nat (b - a)) (skipn (Z.to_nat a) file).
Proof.
  intros Ha Hab. unfold subarray, adjustOffset.
  assert (E1 : (a <? 0) = false) by (apply Z.ltb_ge; lia).
  assert (E2 : (b <? 0) = false) by (apply Z.ltb_ge; lia).
  rewrite E1, E2.
  set (len := Z.of_nat (List.length file)).
  destruct (Z.le_gt_cases len a) as [Hge|Hlt].
  - rewrite Z.min_r by lia.
    rewrite !skipn_all2 by lia.
    now rewrite !firstn_nil.
  - rewrite (Z.min_l a len) by lia.
    destruct (Z.le_gt_cases b len) as [Hb|Hb].
    + now rewrite Z.min_l by lia.
    + rewrite Z.min_r by lia.
      rewrite !firstn_all2; trivial; rewrite length_skipn; lia.
Qed.

Lemma subarray_length (file : Buffer) (o : Z) (k : Z) :
  0 <= k ->
  (List.length (subarray file (Int o) (Int (o + k))) <= Z.to_nat k)%nat.
Proof.
  intros Hk. unfold subarray.
  rewrite length_firstn.
  assert (Hlen : 0 <= Z.of_nat (List.length file)) by lia.
  unfold adjustOffset.
  destruct (o <? 0) eqn:E1; destruct (o + k <? 0) eqn:E2;
    try apply Z.ltb_lt in E1; try apply Z.ltb_lt in E2;
    try apply Z.ltb_ge in E1; try apply Z.ltb_ge in E2; lia.
Qed.

(** Nothing is read at or after the end of the buffer. *)
Lemma subarray_past_end (file : Buffer) (o : Z) (e : number) :
  Z.of_nat (List.length file) <= o ->
  subarray file (Int o) e = [].
Proof.
  intros Ho. unfold subarray.
  assert (Hs : adjustOffset (Int o) (Z.of_nat (List.length file))
               = Z.of_nat (List.length file)).
  { unfold adjustOffset. destruct (o <? 0) eqn:E.
    - apply Z.ltb_lt in E. lia.
    - lia. }
  rewrite Hs, skipn_all2 by lia. apply firstn_nil.
Qed.

Lemma hexValue_nonneg (c : ascii) (d : Z) : hexValue c = Some d -> 0 <= d.
Proof.
  unfold hexValue. intros H.
  repeat match type of H with
         | (if ?b then _ else _) = _ => destruct b eqn:?
         end; inversion H; subst; lia.
Qed.

Lemma hexValue_hexChar (n : N) :
  (n < 16)%N -> hexValue (hexChar n) = Some (Z.of_N n).
Proof.
  intros Hn.
  assert (H : In n (map N.of_nat (seq 0 16))).
  { replace n with (N.of_nat (N.to_nat n)) by apply Nnat.N2Nat.id.
    apply in_map, in_seq. lia. }
  simpl in H.
  repeat (destruct H as [<-|H]; [reflexivity|]). contradiction.
Qed.

Lemma parseDigits_nonneg (s : string) (acc : Z) :
  0 <= acc -> 0 <= parseDigits acc s.
Proof.
  revert acc. induction s as [|c s IH]; intros acc Hacc;
    cbn [parseDigits]; trivial.
  destruct (hexValue c) as [d|] eqn:E; trivial.
  apply IH. apply hexValue_nonneg in E. lia.
Qed.

Lemma roundDouble_nonneg (z : Z) : 0 <= z -> 0 <= roundDouble z.
Proof.
  intros Hz. unfold roundDouble.
  destruct (z <? 2 ^ 53) eqn:E; trivial.
  set (s := Z.log2 z - 52).
  assert (Hp : 0 <= 2 ^ s) by apply Z.pow_nonneg, Z.lt_le_incl, Z.lt_0_2.
  assert (Hq : 0 <= z / 2 ^ s) by (apply Z_div_nonneg_nonneg; trivial).
  repeat match goal with
         | |- context [if ?b then _ else _] => destruct b
         end; nia.
Qed.

Lemma byte_high_nibble (b : byte) : (Byte.to_N b / 16 < 16)%N.
Proof.
  pose proof (Byte.to_N_bounded b) as H.
  apply N.Div0.div_lt_upper_bound. lia.
Qed.

(** [parseInt] of a hex dump: [NaN] exactly for the empty buffer, a
    non-negative integer otherwise. *)
Lemma parseInt16_hex (b : Buffer) :
  match b with
  | [] => parseInt16 (toString_hex b) = NaN
  | _ :: _ => exists z, 0 <= z /\ parseInt16 (toString_hex b) = Int z
  end.
Proof.
  destruct b as [|x rest]; [reflexivity|].
  cbn [toString_hex parseInt16].
  rewrite hexValue_hexChar by apply byte_high_nibble.
  eexists. split; [|reflexivity].
  apply roundDouble_nonneg, parseDigits_nonneg. lia.
Qed.

Lemma parseInt16_hex_cases (b : Buffer) :
  (b = [] /\ parseInt16 (toString_hex b) = NaN)
  \/ (b <> [] /\ exists z, 0 <= z /\ parseInt16 (toString_hex b) = Int z).
Proof.
  pose proof (parseInt16_hex b) as H. destruct b.
  - now left.
  - right. split; [discriminate|exact H].
Qed.

(** ** [extractLabel] *)

(** The offset that [extractLabel] returns, by the length it read. *)
Lemma extractLabel_offset (file : Buffer) (offset : number) :
  let labelLength :=
    parseInt16 (toString_hex (subarray file offset (offset + 4)%num)) in
  snd (extractLabel file offset)
  = if (labelLength === 0)%num then (offset + 4 + 4)%num
    else (offset + 4 + labelLength)%num.
Proof.
  unfold extractLabel. cbv zeta.
  destruct (_ === _)%num; reflexivity.
Qed.

(** The label that [extractLabel] returns, by the length it read. *)
Lemma extractLabel_label (file : Buffer) (offset : number) :
  let labelLength :=
    parseInt16 (toString_hex (subarray file offset (offset + 4)%num)) in
  fst (extractLabel file offset)
  = if (labelLength === 0)%num
    then subarray file (offset + 4)%num (offset + 4 + 4)%num
    else subarray file (offset + 4)%num (offset + 4 + labelLength)%num.
Proof.
  unfold extractLabel. cbv zeta.
  destruct (_ === _)%num; reflexivity.
Qed.

Lemma toString_ascii_length (b : Buffer) :
  String.length (toString_ascii b) = List.length b.
Proof.
  unfold toString_ascii. induction b as [|x b IH]; simpl; trivial.
  now rewrite IH.
Qed.

(** (C4, as amended) When the length that [extractLabel] reads is 0,
    the offset is an integer [o], the label is the slice of the buffer
    between [o + 4] and [o + 8], clipped to the end of the buffer, and
    the returned offset is [o + 8].  The label has at most 4 bytes; it
    has exactly 4, the 4 bytes that follow the length field, when the
    buffer holds at least [o + 8] bytes. *)
Theorem extractLabel_zero_length (file : Buffer) (offset : number) :
  parseInt16 (toString_hex (subarray file offset (offset + 4)%num)) = Int 0 ->
  exists o : Z,
    offset = Int o /\
    extractLabel file offset
    = (subarray file (Int (o + 4)) (Int (o + 8)), Int (o + 8)) /\
    (List.length (fst (extractLabel file offset)) <= 4)%nat /\
    (0 <= o -> o + 8 <= Z.of_nat (List.length file) ->
     fst (extractLabel file offset)
     = firstn 4 (skipn (Z.to_nat (o + 4)) file) /\
     List.length (fst (extractLabel file offset)) = 4%nat).
Proof.
  intros Hlen.
  destruct offset as [o|].
  2:{ simpl in Hlen. discriminate. }
  exists o. split; [reflexivity|].
  assert (E : extractLabel file (Int o)
              = (subarray file (Int (o + 4)) (Int (o + 8)), Int (o + 8))).
  { unfold extractLabel. rewrite Hlen. simpl.
    replace (o + 4 + 4) with (o + 8) by lia. reflexivity. }
  rewrite E. cbn [fst]. split; [reflexivity|]. split.
  - replace (o + 8) with ((o + 4) + 4) by lia.
    apply (subarray_length file (o + 4) 4). lia.
  - intros Ho Hfit.
    rewrite subarray_slice by lia.
    replace (Z.to_nat (o + 8 - (o + 4))) with 4%nat by lia.
    split; [reflexivity|].
    rewrite length_firstn, length_skipn. lia.
Qed.

Lemma extractLabel_zero_length_witness :
  parseInt16
    (toString_hex (subarray shortLabelBuffer (Int 14) (Int 14 + 4)%num))
  = Int 0 /\
  exists o : Z,
    Int 14 = Int o /\
    extractLabel shortLabelBuffer (Int 14)
    = (subarray shortLabelBuffer (Int (o + 4)) (Int (o + 8)), Int (o + 8)) /\
    (List.length (fst (extractLabel shortLabelBuffer (Int 14))) <= 4)%nat /\
    (0 <= o -> o + 8 <= Z.of_nat (List.length shortLabelBuffer) ->
     fst (extractLabel shortLabelBuffer (Int 14))
     = firstn 4 (skipn (Z.to_nat (o + 4)) shortLabelBuffer) /\
     List.length (fst (extractLabel shortLabelBuffer (Int 14))) = 4%nat).
Proof.
  split; [reflexivity|].
  apply (extractLabel_zero_length shortLabelBuffer (Int 14)). reflexivity.
Defined.

(** (C4, as stated, fails) With the length field 0 and a single byte
    after it, the label that [extractLabel] returns has 1 byte, not 4. *)
Lemma extractLabel_zero_length_short :
  parseInt16 (toString_hex
                (subarray [x00; x00; x00; x00; x41] (Int 0) (Int 0 + 4)%num))
  = Int 0 /\
  extractLabel [x00; x00; x00; x00; x41] (Int 0) = ([x41], Int 8) /\
  List.length (fst (extractLabel [x00; x00; x00; x00; x41] (Int 0))) <> 4%nat.
Proof.
  split; [reflexivity|]. split; [reflexivity|]. simpl. discriminate.
Qed.

Section DecoderFacts.

Context {double : Type} (unpack_d : Buffer -> option double).

(** ** Properties *)

(** [extractPropertyValue], one call unfolded. *)
Lemma extractPropertyValue_S (fuel : nat) (file : Buffer) (offset : number)
    (propertyName : Buffer) :
  extractPropertyValue unpack_d (S fuel) file offset propertyName
  = '(propertyValue, newOffset) <-
      extractOsTypeValue unpack_d fuel file (offset + 4)%num
        (trim (toString_ascii propertyName))
        (toString_ascii (subarray file offset (offset + 4)%num)) ;;
    match propertyValue with
    | None => Ok ([], newOffset)
    | Some propertyValue =>
        Ok ([(name propertyValue,
              Typed (os_type propertyValue) (value propertyValue))],
            newOffset)
    end.
Proof. reflexivity. Qed.

(** (C7) When the name label of a property decodes to ["null"],
    [extractProperty] returns the empty object and the offset that
    [extractLabel] returned: nothing after the label is read.  When
    that offset lies inside the buffer, it is the input offset plus 8,
    just after the four bytes of the name. *)
Theorem extractProperty_null (fuel : nat) (file : Buffer) (offset : number) :
  toString_ascii (fst (extractLabel file offset)) = "null" ->
  extractProperty unpack_d (S fuel) file offset
  = Ok ([], snd (extractLabel file offset)) /\
  (forall o e : Z,
      offset = Int o -> 0 <= o ->
      snd (extractLabel file offset) = Int e ->
      e <= Z.of_nat (List.length file) ->
      e = o + 8).
Proof.
  intros Hnull. split.
  - cbn [extractProperty].
    destruct (extractLabel file offset) as [propertyName newOffset].
    cbn [fst snd] in *. rewrite Hnull. reflexivity.
  - intros o e -> Ho He Hfit.
    rewrite extractLabel_offset in He. cbv zeta in He.
    rewrite extractLabel_label in Hnull. cbv zeta in Hnull.
    destruct (parseInt16 _ === 0)%num eqn:E.
    + cbn in He. injection He as <-. lia.
    + destruct (parseInt16_hex_cases
                  (subarray file (Int o) (Int o + 4)%num))
        as [[_ EL]|[_ [z [Hz EL]]]]; rewrite EL in *.
      * discriminate He.
      * cbn in He. injection He as <-.
        apply (f_equal String.length) in Hnull.
        rewrite toString_ascii_length in Hnull.
        rewrite !add_Int, subarray_slice in Hnull by lia.
        rewrite length_firstn, length_skipn in Hnull.
        cbn in Hnull. lia.
Qed.

Lemma unsupported_no_handler (propertyType : string) :
  In propertyType unsupportedTypes ->
  typeHandlers propertyType = None /\
  existsb (String.eqb propertyType) unsupportedTypes = true.
Proof.
  unfold unsupportedTypes. simpl.
  intros [<-|[<-|[<-|[<-|[<-|[]]]]]]; split; reflexivity.
Qed.

Lemma extractOsTypeValue_unsupported (fuel : nat) (file : Buffer)
    (offset : number) (propertyName propertyType : string) :
  In propertyType unsupportedTypes ->
  extractOsTypeValue unpack_d (S fuel) file offset propertyName propertyType
  = Ok (None, offset).
Proof.
  intros Hin. destruct (unsupported_no_handler _ Hin) as [Hh Hu].
  cbn [extractOsTypeValue]. rewrite Hh, Hu. reflexivity.
Qed.

Lemma extractPropertyValue_unsupported (fuel : nat) (file : Buffer)
    (offset : number) (nameBuffer : Buffer) :
  In (toString_ascii (subarray file offset (offset + 4)%num)) unsupportedTypes ->
  extractPropertyValue unpack_d (S (S fuel)) file offset nameBuffer
  = Ok ([], (offset + 4)%num).
Proof.
  intros Hin. rewrite extractPropertyValue_S.
  rewrite extractOsTypeValue_unsupported by exact Hin. reflexivity.
Qed.

(** (C8) On the tags [type], [GlbC], [obj ], [alis] and [tdta],
    [extractOsTypeValue] returns [null] and the offset it was given, and
    [extractPropertyValue], reading such a tag at [offset], returns the
    empty object and [offset + 4]. *)
Theorem unsupported_tag_tolerated (fuel : nat) (file : Buffer)
    (offset : number) (propertyName propertyType : string)
    (nameBuffer : Buffer) :
  In propertyType unsupportedTypes ->
  extractOsTypeValue unpack_d (S fuel) file offset propertyName propertyType
  = Ok (None, offset) /\
  (toString_ascii (subarray file offset (offset + 4)%num) = propertyType ->
   extractPropertyValue unpack_d (S (S fuel)) file offset nameBuffer
   = Ok ([], (offset + 4)%num)).
Proof.
  intros Hin. split.
  - now apply extractOsTypeValue_unsupported.
  - intros Htag. apply extractPropertyValue_unsupported. now rewrite Htag.
Qed.

End DecoderFacts.

Lemma extractProperty_null_witness :
  toString_ascii (fst (extractLabel nullPropertyBuffer (Int 0))) = "null" /\
  extractProperty unpackBytes 1 nullPropertyBuffer (Int 0) = Ok ([], Int 8).
Proof.
  split; [reflexivity|].
  apply (proj1 (extractProperty_null unpackBytes 0 nullPropertyBuffer (Int 0)
                  eq_refl)).
Defined.

Lemma unsupported_tag_tolerated_witness :
  In "tdta" unsupportedTypes /\
  extractOsTypeValue unpackBytes 1 unsupportedBuffer (Int 4) "Size" "tdta"
  = Ok (None, Int 4) /\
  (toString_ascii (subarray unsupportedBuffer (Int 0) (Int 0 + 4)%num) = "tdta" ->
   extractPropertyValue unpackBytes 2 unsupportedBuffer (Int 0)
     (list_byte_of_string "Size")
   = Ok ([], Int 4)).
Proof.
  assert (Hin : In "tdta" unsupportedTypes) by (simpl; tauto).
  split; [exact Hin|].
  split.
  - apply (unsupported_tag_tolerated unpackBytes 0 unsupportedBuffer (Int 4)
             "Size" "tdta" [] Hin).
  - apply (unsupported_tag_tolerated unpackBytes 0 unsupportedBuffer (Int 0)
             "Size" "tdta" (list_byte_of_string "Size") Hin).
Defined.

(** ** Locating the tool section *)

Lemma startsWith_firstn (needle hay : Buffer) :
  startsWith hay needle = true <-> firstn (List.length needle) hay = needle.
Proof.
  revert hay. induction needle as [|n needle IH]; intros hay.
  - destruct hay; simpl; split; reflexivity.
  - destruct hay as [|h hay]; simpl.
    + split; discriminate.
    + rewrite andb_true_iff, IH. split.
      * intros [E ->]. apply byte_dec_bl in E. now subst.
      * intros E. injection E as -> E. split; [apply byte_dec_lb|]; trivial.
Qed.

Lemma startsWith_length (needle hay : Buffer) :
  startsWith hay needle = true -> (List.length needle <= List.length hay)%nat.
Proof.
  rewrite startsWith_firstn. intros E.
  apply (f_equal (@List.length byte)) in E.
  rewrite length_firstn in E. lia.
Qed.

(** [lastIndexFrom] returns the greatest matching index at or below
    [i], and -1 when there is none. *)
Lemma lastIndexFrom_spec (file needle : Buffer) (i : nat) :
  (lastIndexFrom file needle i = -1 /\
   forall j, (j <= i)%nat -> startsWith (skipn j file) needle = false)
  \/
  (exists k, lastIndexFrom file needle i = Z.of_nat k /\ (k <= i)%nat /\
     startsWith (skipn k file) needle = true /\
     forall j, (k < j <= i)%nat -> startsWith (skipn j file) needle = false).
Proof.
  induction i as [|i IH]; cbn [lastIndexFrom].
  - destruct (startsWith (skipn 0 file) needle) eqn:E.
    + right. exists 0%nat. repeat split; trivial. intros j Hj. lia.
    + left. split; trivial. intros j Hj.
      replace j with 0%nat by lia. exact E.
  - destruct (startsWith (skipn (S i) file) needle) eqn:E.
    + right. exists (S i). repeat split; trivial. intros j Hj. lia.
    + destruct IH as [[Hr Hnone]|[k [Hr [Hk [Hat Hnone]]]]].
      * left. split; trivial. intros j Hj.
        destruct (Nat.eq_dec j (S i)) as [->|Hne]; trivial.
        apply Hnone. lia.
      * right. exists k. repeat split; trivial; try lia.
        intros j Hj.
        destruct (Nat.eq_dec j (S i)) as [->|Hne]; trivial.
        apply Hnone. lia.
Qed.

Lemma occursAt_startsWith (file : Buffer) (i : nat) :
  occursAt file i
  <-> startsWith (skipn i file) (list_byte_of_string toolDataSignature) = true.
Proof. unfold occursAt. now rewrite startsWith_firstn. Qed.

Lemma occursAt_bound (file : Buffer) (i : nat) :
  occursAt file i -> (i + 8 <= List.length file)%nat.
Proof.
  rewrite occursAt_startsWith. intros H.
  apply startsWith_length in H. rewrite length_skipn in H.
  change (List.length (list_byte_of_string toolDataSignature)) with 8%nat in H.
  lia.
Qed.

(** [lastIndexOf] with the marker: the last occurrence, or -1. *)
Lemma lastIndexOf_marker (file : Buffer) :
  let r := lastIndexOf file (list_byte_of_string toolDataSignature) in
  (r = -1 /\ forall j, ~ occursAt file j)
  \/ (exists k, r = Z.of_nat k /\ occursAt file k /\
        forall j, occursAt file j -> (j <= k)%nat).
Proof.
  cbv zeta. unfold lastIndexOf.
  set (needle := list_byte_of_string toolDataSignature).
  assert (Hn : List.length needle = 8%nat) by reflexivity.
  destruct (Nat.leb_spec (List.length needle) (List.length file)) as [Hle|Hgt].
  - destruct (lastIndexFrom_spec file needle
                (List.length file - List.length needle))
      as [[Hr Hnone]|[k [Hr [Hk [Hat Hnone]]]]].
    + left. split; trivial. intros j Hj.
      pose proof (occursAt_bound _ _ Hj) as Hb.
      apply occursAt_startsWith in Hj. fold needle in Hj.
      rewrite Hnone in Hj by lia. discriminate.
    + right. exists k. repeat split; trivial.
      * now apply occursAt_startsWith.
      * intros j Hj.
        pose proof (occursAt_bound _ _ Hj) as Hb.
        apply occursAt_startsWith in Hj. fold needle in Hj.
        destruct (Nat.le_gt_cases j k) as [Hjk|Hjk]; trivial.
        rewrite Hnone in Hj by lia. discriminate.
  - left. split; trivial. intros j Hj.
    apply occursAt_bound in Hj. lia.
Qed.

(** (C5) When the marker [8BIMtptp] occurs in the buffer,
    [moveToToolDataSection] returns [true] and the index of its last
    occurrence plus 16; with occurrences at 10 and 200 only, that is
    216.  When the marker does not occur, it returns [false]. *)
Theorem moveToToolDataSection_last (file : Buffer) :
  ((exists i, occursAt file i) ->
   exists last,
     occursAt file last /\
     (forall j, occursAt file j -> (j <= last)%nat) /\
     moveToToolDataSection file = (true, Int (Z.of_nat last + 16))) /\
  (occursAt file 10 -> occursAt file 200 ->
   (forall j, occursAt file j -> j = 10%nat \/ j = 200%nat) ->
   moveToToolDataSection file = (true, Int 216)) /\
  ((forall i, ~ occursAt file i) ->
   moveToToolDataSection file = (false, Int 0)).
Proof.
  assert (Hfound : forall k,
             lastIndexOf file (list_byte_of_string toolDataSignature)
             = Z.of_nat k ->
             moveToToolDataSection file = (true, Int (Z.of_nat k + 16))).
  { intros k E. unfold moveToToolDataSection. rewrite E.
    destruct (Z.eqb_spec (Z.of_nat k) (-1)) as [Hk|Hk]; [lia|reflexivity]. }
  destruct (lastIndexOf_marker file) as [[Hr Hnone]|[k [Hr [Hk Hmax]]]].
  - split; [|split].
    + intros [i Hi]. now apply Hnone in Hi.
    + intros H10 _ _. now apply Hnone in H10.
    + intros _. unfold moveToToolDataSection. rewrite Hr. reflexivity.
  - split; [|split].
    + intros _. exists k. repeat split; trivial. now apply Hfound.
    + intros H10 H200 Honly.
      assert (k = 200%nat) as ->.
      { apply Hmax in H200. destruct (Honly k Hk); lia. }
      apply (Hfound 200%nat Hr).
    + intros Hnone. now apply Hnone in Hk.
Qed.

(** The occurrences of the marker in a buffer, by scanning it. *)
Lemma occursAt_scan (file : Buffer) (j : nat) :
  occursAt file j ->
  In j (filter
          (fun i => startsWith (skipn i file)
                      (list_byte_of_string toolDataSignature))
          (seq 0 (List.length file))).
Proof.
  intros H. apply filter_In. split.
  - apply in_seq. apply occursAt_bound in H. lia.
  - now apply occursAt_startsWith.
Qed.

Lemma moveToToolDataSection_last_witness :
  (exists i, occursAt twoMarkerBuffer i) /\
  occursAt twoMarkerBuffer 10 /\
  occursAt twoMarkerBuffer 200 /\
  (forall j, occursAt twoMarkerBuffer j -> j = 10%nat \/ j = 200%nat) /\
  moveToToolDataSection twoMarkerBuffer = (true, Int 216).
Proof.
  assert (H10 : occursAt twoMarkerBuffer 10) by reflexivity.
  assert (H200 : occursAt twoMarkerBuffer 200) by reflexivity.
  assert (Honly : forall j, occursAt twoMarkerBuffer j ->
                            j = 10%nat \/ j = 200%nat).
  { intros j Hj. apply occursAt_scan in Hj.
    vm_compute in Hj. destruct Hj as [<-|[<-|[]]]; auto. }
  split; [now exists 10%nat|].
  split; [exact H10|]. split; [exact H200|]. split; [exact Honly|].
  exact (proj1 (proj2 (moveToToolDataSection_last twoMarkerBuffer))
           H10 H200 Honly).
Defined.

(** ** Header validation *)

(** [validateTplHeader] from offset 0, with the slices spelled out. *)
Lemma validateTplHeader_0 (file : Buffer) :
  validateTplHeader file (Int 0)
  = if negb (toLowerCase (toString_ascii (firstn 4 file)) =? "8btp")%string
    then (false, Int 4)
    else if negb (toLowerCase (toString_ascii (firstn 4 (skipn 12 file)))
                  =? "8bim")%string
         then (false, Int 16)
         else (true, Int 16).
Proof.
  unfold validateTplHeader. rewrite !add_Int.
  rewrite !subarray_slice by lia.
  reflexivity.
Qed.

Lemma byte_7bit (b : byte) : (N.land (Byte.to_N b) 127 < 128)%N.
Proof. destruct b; reflexivity. Qed.

(** What [toLowerCase] after the ASCII decoding does to one byte,
    against a character that is not a capital letter. *)
Lemma lowerChar_letterCode (b : byte) (c : ascii) :
  ~ (65 <= N_of_ascii c <= 90)%N ->
  (lowerChar (asciiChar b) = c <-> letterCode (N.land (Byte.to_N b) 127) c).
Proof.
  intros Hc. unfold lowerChar, asciiChar, letterCode.
  pose proof (byte_7bit b) as Hn.
  set (n := N.land (Byte.to_N b) 127) in *.
  rewrite N_ascii_embedding by lia.
  assert (Hinj : forall m, (m < 256)%N ->
                           (ascii_of_N m = c <-> m = N_of_ascii c)).
  { intros m Hm. split.
    - intros <-. now rewrite N_ascii_embedding.
    - intros ->. apply ascii_N_embedding. }
  destruct (N.leb_spec 65 n); destruct (N.leb_spec n 90); cbn [andb];
    rewrite Hinj by lia; lia.
Qed.

(** The signature test of [validateTplHeader], byte by byte. *)
Lemma signature_letters (bytes : Buffer) (s : string) :
  Forall (fun c => ~ (65 <= N_of_ascii c <= 90)%N) (list_ascii_of_string s) ->
  (toLowerCase (toString_ascii bytes) = s
   <-> asciiCaseInsensitiveEqual bytes s).
Proof.
  unfold asciiCaseInsensitiveEqual, toString_ascii.
  revert s. induction bytes as [|b bytes IH]; intros s Hs.
  - destruct s; simpl; split; intros H; trivial; try discriminate;
      try constructor; inversion H.
  - destruct s as [|c s]; simpl.
    + split; intros H; [discriminate|inversion H].
    + simpl in Hs. inversion Hs as [|? ? Hc Hs']; subst.
      split.
      * intros H. injection H as Hb Hrest.
        constructor; [now apply lowerChar_letterCode|now apply IH].
      * intros H. inversion H as [|? ? ? ? Hb Hrest]; subst.
        f_equal; [now apply lowerChar_letterCode|now apply IH].
Qed.

Lemma signature_8btp (bytes : Buffer) :
  toLowerCase (toString_ascii bytes) = "8btp"
  <-> asciiCaseInsensitiveEqual bytes "8btp".
Proof.
  apply signature_letters. simpl. repeat constructor; simpl; lia.
Qed.

Lemma signature_8bim (bytes : Buffer) :
  toLowerCase (toString_ascii bytes) = "8bim"
  <-> asciiCaseInsensitiveEqual bytes "8bim".
Proof.
  apply signature_letters. simpl. repeat constructor; simpl; lia.
Qed.

(** On bytes below 128 clearing the high bit changes nothing. *)
Lemma caseInsensitiveEqual_7bit (bytes : Buffer) (s : string) :
  Forall (fun b => (Byte.to_N b < 128)%N) bytes ->
  (asciiCaseInsensitiveEqual bytes s <-> caseInsensitiveEqual bytes s).
Proof.
  unfold asciiCaseInsensitiveEqual, caseInsensitiveEqual.
  intros H7. generalize (list_ascii_of_string s) as cs.
  induction H7 as [|b bytes Hb _ IH]; intros cs.
  - split; intros H; inversion H; constructor.
  - assert (E : N.land (Byte.to_N b) 127 = Byte.to_N b).
    { destruct b; try reflexivity; vm_compute in Hb; discriminate. }
    split; intros H; inversion H; subst; constructor;
      try (now apply IH); congruence.
Qed.

Section HeaderFacts.

Context {double : Type} (unpack_d : Buffer -> option double).

(** (C6, as amended) [validateTplHeader] accepts, with offset 16,
    exactly the buffers whose first 4 bytes, with the high bit of each
    byte cleared (as Node decodes ASCII), equal [8btp] up to letter
    case, and whose bytes 12..15 likewise equal [8bim].  For every
    other buffer it returns [false], and [readTpl] returns the empty
    document whatever the fuel: nothing more is decoded. *)
Theorem validateTplHeader_accepts (file : Buffer) :
  (asciiCaseInsensitiveEqual (firstn 4 file) "8btp" /\
   asciiCaseInsensitiveEqual (firstn 4 (skipn 12 file)) "8bim" ->
   validateTplHeader file (Int 0) = (true, Int 16)) /\
  (~ (asciiCaseInsensitiveEqual (firstn 4 file) "8btp" /\
      asciiCaseInsensitiveEqual (firstn 4 (skipn 12 file)) "8bim") ->
   fst (validateTplHeader file (Int 0)) = false /\
   forall fuel, readTpl unpack_d fuel file = Ok []).
Proof.
  rewrite <- signature_8btp, <- signature_8bim. split.
  - intros [H1 H2]. rewrite validateTplHeader_0, H1, H2. reflexivity.
  - intros Hno.
    assert (E : fst (validateTplHeader file (Int 0)) = false).
    { rewrite validateTplHeader_0.
      destruct (String.eqb_spec
                  (toLowerCase (toString_ascii (firstn 4 file))) "8btp")
        as [H1|H1]; [|reflexivity].
      destruct (String.eqb_spec
                  (toLowerCase (toString_ascii (firstn 4 (skipn 12 file))))
                  "8bim") as [H2|H2]; [|reflexivity].
      exfalso. apply Hno. now split. }
    split; [exact E|].
    intros fuel. unfold readTpl.
    destruct (validateTplHeader file (Int 0)) as [isValid offset].
    cbn [fst] in E. subst isValid. reflexivity.
Qed.

End HeaderFacts.

Lemma validateTplHeader_accepts_witness :
  (asciiCaseInsensitiveEqual (firstn 4 plainHeader) "8btp" /\
   asciiCaseInsensitiveEqual (firstn 4 (skipn 12 plainHeader)) "8bim") /\
  validateTplHeader plainHeader (Int 0) = (true, Int 16) /\
  ~ (asciiCaseInsensitiveEqual (firstn 4 twoMarkerBuffer) "8btp" /\
     asciiCaseInsensitiveEqual (firstn 4 (skipn 12 twoMarkerBuffer)) "8bim") /\
  fst (validateTplHeader twoMarkerBuffer (Int 0)) = false /\
  (forall fuel, readTpl unpackBytes fuel twoMarkerBuffer = Ok []).
Proof.
  assert (Hyes : asciiCaseInsensitiveEqual (firstn 4 plainHeader) "8btp" /\
                 asciiCaseInsensitiveEqual (firstn 4 (skipn 12 plainHeader))
                   "8bim").
  { split; unfold asciiCaseInsensitiveEqual; simpl;
      repeat (apply Forall2_cons; [unfold letterCode; simpl; lia|]);
      apply Forall2_nil. }
  assert (Hno : ~ (asciiCaseInsensitiveEqual (firstn 4 twoMarkerBuffer) "8btp"
                   /\ asciiCaseInsensitiveEqual
                        (firstn 4 (skipn 12 twoMarkerBuffer)) "8bim")).
  { intros [H _]. inversion H as [|? ? ? ? Hb _]; subst.
    destruct Hb as [Hb|[_ Hb]]; discriminate Hb. }
  split; [exact Hyes|].
  split; [exact (proj1 (validateTplHeader_accepts unpackBytes plainHeader) Hyes)|].
  split; [exact Hno|].
  exact (proj2 (validateTplHeader_accepts unpackBytes twoMarkerBuffer) Hno).
Defined.

(** (C6, as stated, fails) A header whose first byte is [0xB8] is
    accepted, although its first 4 bytes do not equal [8btp] up to
    letter case: Node's ASCII decoding reads [0xB8] as ['8']. *)
Lemma validateTplHeader_high_bit :
  validateTplHeader highBitHeader (Int 0) = (true, Int 16) /\
  ~ caseInsensitiveEqual (firstn 4 highBitHeader) "8btp".
Proof.
  split; [reflexivity|].
  intros H. inversion H as [|? ? ? ? Hb _]; subst.
  destruct Hb as [Hb|[_ Hb]]; discriminate Hb.
Qed.

(** ** The cursor never moves back *)

Lemma past_notBefore (o o' : number) : past o o' -> notBefore o o'.
Proof. destruct o, o'; simpl; trivial; lia. Qed.

Lemma notBefore_refl (o : number) : notBefore o o.
Proof. destruct o; simpl; trivial; lia. Qed.

Lemma notBefore_trans (a b c : number) :
  notBefore a b -> notBefore b c -> notBefore a c.
Proof. destruct a, b, c; simpl; trivial; try lia; tauto. Qed.

Lemma past_notBefore_trans (a b c : number) :
  past a b -> notBefore b c -> past a c.
Proof. destruct a, b, c; simpl; trivial; try lia; tauto. Qed.

Lemma notBefore_past_trans (a b c : number) :
  notBefore a b -> past b c -> past a c.
Proof. destruct a, b, c; simpl; trivial; try lia; tauto. Qed.

Lemma past_add (o : number) (k : Z) : 0 < k -> past o (o + Int k)%num.
Proof. destruct o; simpl; trivial; lia. Qed.

Lemma notBefore_add (o : number) (l : number) :
  lengthRead l -> notBefore o (o + l)%num.
Proof. destruct o, l; simpl; trivial; lia. Qed.

Lemma past_add_accepted (o : number) (l : number) :
  lengthAccepted l -> past o (o + l)%num.
Proof. destruct o, l; simpl; trivial; lia. Qed.

Lemma parseInt16_lengthRead (b : Buffer) :
  lengthRead (parseInt16 (toString_hex b)).
Proof.
  destruct (parseInt16_hex_cases b) as [[_ ->]|[_ [z [Hz ->]]]]; simpl; trivial.
Qed.

Lemma lengthRead_nonzero (l : number) :
  lengthRead l -> (l === 0)%num = false -> lengthAccepted l.
Proof.
  destruct l as [z|]; simpl; trivial.
  intros Hz E. apply Z.eqb_neq in E. lia.
Qed.

Lemma afterP_bind {A B : Type} (Q : A -> Prop) (P : B -> Prop)
    (m : res A) (k : A -> res B) :
  afterP Q m -> (forall a, Q a -> afterP P (k a)) -> afterP P (bind m k).
Proof. destruct m; simpl; auto. Qed.

Lemma afterP_weaken {A : Type} (Q P : A -> Prop) (r : res A) :
  afterP Q r -> (forall a, Q a -> P a) -> afterP P r.
Proof. destruct r; simpl; auto. Qed.

Lemma after_weaken {A : Type} (Q P : number -> Prop) (r : res (A * number)) :
  after Q r -> (forall o, Q o -> P o) -> after P r.
Proof. unfold after. intros H HQP. eapply afterP_weaken; eauto. Qed.

Lemma extractLabel_past (file : Buffer) (offset : number) :
  past offset (snd (extractLabel file offset)).
Proof.
  rewrite extractLabel_offset. cbv zeta.
  pose proof (parseInt16_lengthRead
                (subarray file offset (offset + 4)%num)) as Hl.
  destruct (_ === _)%num eqn:E.
  - destruct offset; simpl; trivial; lia.
  - apply lengthRead_nonzero in E; trivial.
    apply notBefore_past_trans with (offset + 4)%num.
    + apply notBefore_add. simpl. lia.
    + now apply past_add_accepted.
Qed.

(** The length substitution of [extractEnum]: 0 is read as 4. *)
Lemma enum_length_accepted (b : Buffer) :
  lengthAccepted
    (if (parseInt16 (toString_hex b) === 0)%num then Int 4
     else parseInt16 (toString_hex b)).
Proof.
  destruct (_ === _)%num eqn:E; [simpl; lia|].
  apply lengthRead_nonzero; trivial. apply parseInt16_lengthRead.
Qed.

Lemma extractEnum_past (file : Buffer) (offset : number) :
  past offset (snd (extractEnum file offset)).
Proof.
  unfold extractEnum. cbv zeta. cbn [snd].
  set (o1 := (offset + 4)%num).
  set (l1 := if (parseInt16 _ === 0)%num then Int 4 else _).
  assert (H1 : lengthAccepted l1) by apply enum_length_accepted.
  clearbody l1.
  set (o2 := (o1 + l1)%num).
  set (o3 := (o2 + 4)%num).
  set (l2 := if (parseInt16 _ === 0)%num then Int 4 else _).
  assert (H2 : lengthAccepted l2) by apply enum_length_accepted.
  clearbody l2.
  apply past_notBefore_trans with o1; [apply past_add; lia|].
  apply notBefore_trans with o2; [apply past_notBefore, past_add_accepted, H1|].
  apply notBefore_trans with o3; [apply past_notBefore, past_add; lia|].
  apply past_notBefore, past_add_accepted, H2.
Qed.

Lemma extractUntilPlaceholder_past (fuel : nat) (file : Buffer)
    (offset : number) (prefix : string) :
  after (past offset) (extractUntilPlaceholder fuel file offset prefix).
Proof.
  revert offset prefix.
  induction fuel as [|fuel IH]; intros offset prefix; [exact I|].
  cbn [extractUntilPlaceholder]. cbv zeta.
  destruct (existsb _ placeholders).
  - simpl. apply past_add. lia.
  - eapply after_weaken; [apply IH|].
    intros o Ho. cbv beta in Ho.
    eapply notBefore_past_trans; [|exact Ho].
    apply past_notBefore, past_add. lia.
Qed.

Section CursorFacts.

Context {double : Type} (unpack_d : Buffer -> option double).

Lemma extractDouble_past (file : Buffer) (offset : number) :
  after (past offset) (extractDouble unpack_d file offset).
Proof.
  unfold extractDouble. destruct (unpack_d _); simpl; trivial.
  apply past_add. lia.
Qed.

Lemma extractUnitFloat_past (file : Buffer) (offset : number) :
  after (past offset) (extractUnitFloat unpack_d file offset).
Proof.
  unfold extractUnitFloat. cbv zeta. destruct (unpack_d _); simpl; trivial.
  destruct offset; simpl; trivial. lia.
Qed.

(** Every decoder of the recursive family returns, when it returns, an
    offset that is [NaN] or not before the one it was given. *)
Lemma decoder_advances (fuel : nat) :
  (forall file o,
      after (past o) (extractProperty unpack_d fuel file o)) /\
  (forall file o n,
      after (past o) (extractPropertyValue unpack_d fuel file o n)) /\
  (forall file o n t,
      after (notBefore o) (extractOsTypeValue unpack_d fuel file o n t)) /\
  (forall file o n,
      after (past o) (extractObjectClass unpack_d fuel file o n)) /\
  (forall file o i c ps,
      after (notBefore o) (forProperties unpack_d fuel file o i c ps)) /\
  (forall file o,
      after (past o) (extractText unpack_d fuel file o)) /\
  (forall file l o,
      lengthRead l ->
      afterP (whileTextOk o) (whileText unpack_d fuel file l o)) /\
  (forall file o,
      after (past o) (extractList unpack_d fuel file o)) /\
  (forall file o i c ps,
      after (notBefore o) (forList unpack_d fuel file o i c ps)).
Proof.
  induction fuel as [|fuel IH].
  { repeat split; intros; exact I. }
  destruct IH as (IHprop & IHvalue & IHos & IHobj & IHprops & IHtext
                  & IHwhile & IHlist & IHitems).
  repeat split.
  - (* extractProperty *)
    intros file o. cbn [extractProperty].
    pose proof (extractLabel_past file o) as Hl.
    destruct (extractLabel file o) as [propertyName newOffset].
    cbn [snd] in Hl.
    destruct (negb _).
    + eapply after_weaken; [apply IHvalue|].
      intros o' Ho'. eapply notBefore_past_trans; [|exact Ho'].
      now apply past_notBefore.
    + exact Hl.
  - (* extractPropertyValue *)
    intros file o n. cbn [extractPropertyValue]. cbv zeta.
    apply afterP_bind with (Q := fun p => notBefore (o + 4)%num (snd p)).
    + apply IHos.
    + intros [propertyValue newOffset] Hq. cbn [snd] in Hq.
      assert (Hp : past o newOffset).
      { eapply past_notBefore_trans; [|exact Hq]. apply past_add. lia. }
      destruct propertyValue; exact Hp.
  - (* extractOsTypeValue *)
    intros file o n t. cbn [extractOsTypeValue].
    destruct (typeHandlers t) as [handler|].
    + apply afterP_bind with (Q := fun p => notBefore o (snd p)).
      * destruct handler.
        -- eapply afterP_bind; [apply IHobj|].
           intros [v o'] H. now apply past_notBefore.
        -- eapply afterP_bind; [apply IHlist|].
           intros [v o'] H. now apply past_notBefore.
        -- eapply afterP_bind; [apply extractDouble_past|].
           intros [v o'] H. now apply past_notBefore.
        -- eapply afterP_bind; [apply extractUnitFloat_past|].
           intros [v o'] H. now apply past_notBefore.
        -- eapply afterP_bind; [apply IHtext|].
           intros [v o'] H. now apply past_notBefore.
        -- pose proof (extractEnum_past file o) as H.
           destruct (extractEnum file o) as [v o'].
           now apply past_notBefore.
        -- simpl. apply past_notBefore, past_add. lia.
        -- simpl. apply past_notBefore, past_add. lia.
        -- simpl. apply past_notBefore, past_add. lia.
      * intros [v o'] H. exact H.
    + destruct (existsb _ unsupportedTypes).
      * apply notBefore_refl.
      * eapply afterP_bind; [apply extractUntilPlaceholder_past|].
        intros [[nameFound newPropertyType] newOffset] H. cbn [snd] in H.
        eapply after_weaken; [apply IHos|].
        intros o' Ho'. eapply notBefore_trans; [|exact Ho'].
        now apply past_notBefore.
  - (* extractObjectClass *)
    intros file o n. cbn [extractObjectClass].
    apply afterP_bind with (Q := fun p => past o (fst p)).
    + destruct (n =? "Grad")%string.
      * eapply afterP_bind; [apply IHtext|].
        intros [v o'] H. exact H.
      * simpl. 
        eapply past_notBefore_trans; [apply (past_add o 6); lia|].
        eapply notBefore_trans;
          [apply past_notBefore, extractLabel_past|].
        apply past_notBefore, past_add. lia.
    + intros [o' propertyCount] H. cbn [fst] in H.
      eapply after_weaken; [apply IHprops|].
      intros o'' Ho''. eapply past_notBefore_trans; eauto.
  - (* forProperties *)
    intros file o i c ps. cbn [forProperties].
    destruct (Int i <? c)%num.
    + eapply afterP_bind; [apply IHprop|].
      intros [property newOffset] H. cbn [snd] in H.
      eapply after_weaken; [apply IHprops|].
      intros o' Ho'. eapply notBefore_trans; [|exact Ho'].
      now apply past_notBefore.
    + apply notBefore_refl.
  - (* extractText *)
    intros file o. cbn [extractText]. cbv zeta.
    eapply afterP_bind.
    + apply IHwhile. apply parseInt16_lengthRead.
    + intros [l' o'] [Hl Ho]. cbn [fst snd] in *. simpl.
      eapply past_notBefore_trans; [apply (past_add o 4); lia|].
      eapply notBefore_trans; [exact Ho|].
      apply past_notBefore, past_add_accepted.
      destruct l'; simpl in *; trivial; lia.
  - (* whileText *)
    intros file l o Hl. cbn [whileText].
    destruct (l === 0)%num eqn:E.
    + cbv zeta.
      apply afterP_bind with (Q := fun p => past (o - 4)%num (snd p)).
      * apply IHprop.
      * intros [v o1] H. cbn [snd] in H.
        assert (Ho : notBefore o (o1 + 4)%num).
        { destruct o, o1; simpl in *; trivial; lia. }
        set (l1 := parseInt16 _).
        assert (Hl1 : lengthRead l1) by apply parseInt16_lengthRead.
        clearbody l1.
        destruct (Num.truthy l1) eqn:Et.
        -- destruct (Int (countMatches00 _) === _)%num.
           ++ cbn [afterP]. split; [|exact Ho]. cbn [fst].
              destruct l1; simpl in *; trivial.
              apply negb_true_iff, Z.eqb_neq in Et. lia.
           ++ eapply afterP_weaken; [apply IHwhile; simpl; lia|].
              intros [l' o'] [Hl' Ho']. split; trivial.
              eapply notBefore_trans; eauto.
        -- eapply afterP_weaken; [apply IHwhile; exact Hl1|].
           intros [l' o'] [Hl' Ho']. split; trivial.
           eapply notBefore_trans; eauto.
    + cbn [afterP]. split; [|apply notBefore_refl]. cbn [fst].
      now apply lengthRead_nonzero.
  - (* extractList *)
    intros file o. cbn [extractList]. cbv zeta.
    eapply after_weaken; [apply IHitems|].
    intros o' Ho'. eapply past_notBefore_trans; [|exact Ho'].
    apply past_add. lia.
  - (* forList *)
    intros file o i c ps. cbn [forList].
    destruct (Int i <? c)%num.
    + cbv zeta. eapply afterP_bind; [apply IHvalue|].
      intros [property newOffset] H. cbn [snd] in H.
      eapply after_weaken; [apply IHitems|].
      intros o' Ho'. eapply notBefore_trans; [|exact Ho'].
      now apply past_notBefore.
    + apply notBefore_refl.
Qed.

(** (C9, as amended) From an integer offset [o]: [extractInteger],
    [extractLargeInteger] and [extractBoolean] return [o + 4], [o + 8]
    and [o + 1]; [extractDouble], when [unpack] does not throw, returns
    [o + 8]; [extractLabel] and [extractEnum] return an offset that is
    greater than [o] or [NaN], and [extractLabel] returns [NaN] exactly
    when nothing can be read at [o]; [extractText], whenever it
    returns, returns an offset that is greater than [o] or [NaN], and
    it does return, with [o + 4 + 2 * L], when the first length [L] it
    reads is not 0. *)
Theorem decode_steps_advance (fuel : nat) (file : Buffer) (o : Z) :
  snd (extractInteger file (Int o)) = Int (o + 4) /\
  snd (extractLargeInteger file (Int o)) = Int (o + 8) /\
  snd (extractBoolean file (Int o)) = Int (o + 1) /\
  after (fun o' => o' = Int (o + 8)) (extractDouble unpack_d file (Int o)) /\
  past (Int o) (snd (extractLabel file (Int o))) /\
  (snd (extractLabel file (Int o)) = NaN
   <-> subarray file (Int o) (Int (o + 4)) = []) /\
  past (Int o) (snd (extractEnum file (Int o))) /\
  after (past (Int o)) (extractText unpack_d fuel file (Int o)) /\
  (forall L : Z,
      parseInt16 (toString_hex (subarray file (Int o) (Int (o + 4)))) = Int L ->
      L <> 0 ->
      extractText unpack_d (S (S fuel)) file (Int o)
      = Ok (removeNul
              (toString_ascii
                 (fromHex
                    (toString_hex
                       (subarray file (Int (o + 4)) (Int (o + 4 + L * 2)))))),
            Int (o + 4 + L * 2))).
Proof.
  repeat split; try reflexivity.
  - unfold extractDouble. destruct (unpack_d _); simpl; trivial.
  - apply extractLabel_past.
  - rewrite extractLabel_offset. cbv zeta. rewrite add_Int.
    destruct (parseInt16_hex_cases (subarray file (Int o) (Int (o + 4))))
      as [[E _]|[_ [z [_ Hz]]]]; trivial.
    rewrite Hz. destruct (Int z === 0)%num; discriminate.
  - rewrite extractLabel_offset. cbv zeta. rewrite add_Int.
    intros E. rewrite E. reflexivity.
  - apply extractEnum_past.
  - apply decoder_advances.
  - intros L HL Hnz.
    cbn [extractText]. cbv zeta. rewrite !add_Int, HL.
    cbn [whileText].
    assert (E : (Int L === 0)%num = false) by (simpl; now apply Z.eqb_neq).
    rewrite E. reflexivity.
Qed.

End CursorFacts.

Lemma decode_steps_advance_witness :
  parseInt16 (toString_hex (subarray directTextBuffer (Int 0) (Int (0 + 4))))
  = Int 2 /\
  2 <> 0 /\
  past (Int 14) (snd (extractLabel shortLabelBuffer (Int 14))) /\
  after (past (Int 14)) (extractText unpackBytes 5 shortLabelBuffer (Int 14)) /\
  extractText unpackBytes 2 directTextBuffer (Int 0) = Ok ("Hi", Int 8).
Proof.
  pose proof (decode_steps_advance unpackBytes 5 shortLabelBuffer 14)
    as (_ & _ & _ & _ & Hlabel & _ & _ & Htext & _).
  pose proof (decode_steps_advance unpackBytes 0 directTextBuffer 0)
    as (_ & _ & _ & _ & _ & _ & _ & _ & Hdirect).
  split; [reflexivity|].
  split; [discriminate|].
  split; [exact Hlabel|].
  split; [exact Htext|].
  rewrite (Hdirect 2 eq_refl); [reflexivity|discriminate].
Defined.

(** (C9, as stated, fails) At the end of the buffer [extractLabel] and
    [extractText] return the offset [NaN], which is not greater than
    the offset they started from. *)
Lemma decode_steps_NaN :
  extractLabel [] (Int 0) = ([], NaN) /\
  extractText unpackBytes 2 [] (Int 0) = Ok ("", NaN) /\
  (Int 0 <? NaN)%num = false.
Proof. repeat split. Qed.

(** ** The placeholder scan *)

Lemma firstn_add_skipn {A : Type} (n m : nat) (l : list A) :
  (firstn n l ++ firstn m (skipn n l))%list = firstn (n + m) l.
Proof.
  revert l. induction n as [|n IH]; intros l; [reflexivity|].
  destruct l as [|x l]; simpl.
  - now rewrite firstn_nil.
  - now rewrite IH.
Qed.

Lemma subarray_split (file : Buffer) (a b c : Z) :
  0 <= a -> a <= b -> b <= c ->
  (subarray file (Int a) (Int b) ++ subarray file (Int b) (Int c))%list
  = subarray file (Int a) (Int c).
Proof.
  intros Ha Hab Hbc. rewrite !subarray_slice by lia.
  replace (Z.to_nat b) with (Z.to_nat (b - a) + Z.to_nat a)%nat by lia.
  rewrite <- skipn_skipn, firstn_add_skipn.
  f_equal. lia.
Qed.

(** Past the end of the buffer a slice stops growing. *)
Lemma subarray_clip (file : Buffer) (a b : Z) :
  0 <= a -> Z.of_nat (List.length file) <= b -> a <= b ->
  subarray file (Int a) (Int b)
  = subarray file (Int a) (Int (Z.max a (Z.of_nat (List.length file)))).
Proof.
  intros Ha Hb Hab. rewrite !subarray_slice by lia.
  rewrite !firstn_all2; trivial; rewrite length_skipn; lia.
Qed.

Lemma toString_ascii_app (b1 b2 : Buffer) :
  toString_ascii (b1 ++ b2) = (toString_ascii b1 ++ toString_ascii b2)%string.
Proof.
  unfold toString_ascii. induction b1 as [|x b1 IH]; simpl; trivial.
  now rewrite IH.
Qed.

Lemma append_assoc (s1 s2 s3 : string) :
  ((s1 ++ s2) ++ s3 = s1 ++ (s2 ++ s3))%string.
Proof. induction s1 as [|c s1 IH]; simpl; trivial. now rewrite IH. Qed.

(** When no text that the scan can accumulate ends with a placeholder,
    the scan is out of fuel whatever the fuel. *)
Lemma extractUntilPlaceholder_never (fuel : nat) (file : Buffer) (o : Z)
    (prefix : string) :
  0 <= o ->
  (forall k, 1 <= k ->
     endsWithPlaceholder
       (prefix ++ toString_ascii (subarray file (Int o) (Int (o + k))))
     = false) ->
  extractUntilPlaceholder fuel file (Int o) prefix = Timeout.
Proof.
  revert o prefix.
  induction fuel as [|fuel IH]; intros o prefix Ho Hnone; [reflexivity|].
  cbn [extractUntilPlaceholder]. cbv zeta. rewrite add_Int.
  pose proof (Hnone 1 ltac:(lia)) as H1.
  unfold endsWithPlaceholder in H1. rewrite H1.
  apply IH; [lia|].
  intros k Hk.
  rewrite append_assoc, <- toString_ascii_app.
  rewrite subarray_split by lia.
  replace (o + 1 + k) with (o + (1 + k)) by lia.
  apply Hnone. lia.
Qed.

(** (C3, as amended) The scan has no bound.  When the accumulated
    text does not come to end with a placeholder while bytes remain
    (nor on the first read, if none remains), the scan goes on past the
    end of the buffer, where it reads nothing and its text no longer
    changes: it neither returns nor raises, whatever the fuel. *)
Theorem extractUntilPlaceholder_overrun (file : Buffer) (o : Z)
    (prefix : string) :
  0 <= o ->
  (forall k, 1 <= k <= Z.max 1 (Z.of_nat (List.length file) - o) ->
     endsWithPlaceholder
       (prefix ++ toString_ascii (subarray file (Int o) (Int (o + k))))
     = false) ->
  forall fuel, extractUntilPlaceholder fuel file (Int o) prefix = Timeout.
Proof.
  intros Ho Hnone fuel.
  apply extractUntilPlaceholder_never; trivial.
  intros k Hk.
  set (len := Z.of_nat (List.length file)) in *.
  destruct (Z.le_gt_cases k (Z.max 1 (len - o))) as [Hle|Hgt].
  - apply Hnone. lia.
  - rewrite subarray_clip by (fold len; lia). fold len.
    destruct (Z.le_gt_cases len o) as [Hend|Hin].
    + rewrite subarray_past_end by (fold len; lia).
      rewrite <- (subarray_past_end file o (Int (o + 1))) by (fold len; lia).
      apply Hnone. lia.
    + replace (Z.max o len) with (o + (len - o)) by lia.
      apply Hnone. lia.
Qed.

Lemma extractUntilPlaceholder_overrun_witness :
  0 <= 2 /\
  (forall k, 1 <= k <= Z.max 1 (Z.of_nat (List.length unsupportedBuffer) - 2) ->
     endsWithPlaceholder
       ("Size"
        ++ toString_ascii (subarray unsupportedBuffer (Int 2) (Int (2 + k))))
     = false) /\
  (forall fuel,
     extractUntilPlaceholder fuel unsupportedBuffer (Int 2) "Size" = Timeout).
Proof.
  assert (Hnone : forall k,
             1 <= k <= Z.max 1 (Z.of_nat (List.length unsupportedBuffer) - 2) ->
             endsWithPlaceholder
               ("Size"
                ++ toString_ascii
                     (subarray unsupportedBuffer (Int 2) (Int (2 + k))))
             = false).
  { intros k Hk. change (1 <= k <= 6) in Hk.
    assert (Hcases : k = 1 \/ k = 2 \/ k = 3 \/ k = 4 \/ k = 5 \/ k = 6)
      by lia.
    destruct Hcases as [->|[->|[->|[->|[->| ->]]]]]; reflexivity. }
  split; [lia|]. split; [exact Hnone|].
  apply (extractUntilPlaceholder_overrun unsupportedBuffer 2 "Size");
    [lia|exact Hnone].
Defined.

(** (C3, as stated, fails) On the empty buffer the scan never finishes:
    no fuel makes it return or raise. *)
Lemma extractUntilPlaceholder_empty_diverges :
  ~ (exists fuel,
       extractUntilPlaceholder fuel [] (Int 0) "" <> Timeout).
Proof.
  intros [fuel H]. apply H.
  apply extractUntilPlaceholder_never; [lia|].
  intros k Hk. rewrite subarray_past_end by (simpl; lia). reflexivity.
Qed.

(** ** What the scan returns *)

Lemma substring_all (s : string) : substring 0 (String.length s) s = s.
Proof. induction s as [|c s IH]; simpl; trivial. now rewrite IH. Qed.

Lemma substring_split (s : string) (k : nat) :
  (k <= String.length s)%nat ->
  (substring 0 k s ++ substring k (String.length s - k) s)%string = s.
Proof.
  revert k. induction s as [|c s IH]; intros k Hk.
  - destruct k; reflexivity.
  - destruct k as [|k].
    + cbn [substring append]. rewrite Nat.sub_0_r.
      apply (substring_all (String c s)).
    + cbn [substring append String.length Nat.sub].
      rewrite IH; trivial. simpl in Hk. lia.
Qed.

(** The two slices that the scan returns, on a text of at least four
    characters. *)
Lemma slice_last4 (text : string) :
  (4 <= String.length text)%nat ->
  slice text 0 (Some (- 4)) = substring 0 (String.length text - 4) text /\
  slice text (- 4) None = substring (String.length text - 4) 4 text.
Proof.
  intros Hlen. unfold slice, sliceIndex.
  change (0 <? 0) with false. change (- 4 <? 0) with true. cbv iota.
  split; f_equal; lia.
Qed.

(** The scan returns the last four characters of the accumulated text
    and what precedes them. *)
Lemma extractUntilPlaceholder_slices (fuel : nat) (file : Buffer)
    (offset : number) (prefix name tag : string) (o' : number) :
  extractUntilPlaceholder fuel file offset prefix = Ok (name, tag, o') ->
  exists text,
    endsWithPlaceholder text = true /\
    name = slice text 0 (Some (- 4)) /\
    tag = slice text (- 4) None.
Proof.
  revert offset prefix.
  induction fuel as [|fuel IH]; intros offset prefix Hrun; [discriminate|].
  cbn [extractUntilPlaceholder] in Hrun. cbv zeta in Hrun.
  destruct (existsb _ placeholders) eqn:E.
  - injection Hrun as <- <- <-.
    eexists. split; [exact E|]. split; reflexivity.
  - eapply IH, Hrun.
Qed.

(** For a placeholder of four characters the split is the text before
    the literal and the literal. *)
Lemma slice_placeholder4 (text p : string) :
  String.length p = 4%nat ->
  endsWith text p = true ->
  slice text (- 4) None = p /\
  (slice text 0 (Some (- 4)) ++ p)%string = text.
Proof.
  intros Hp Hends. unfold endsWith in Hends. rewrite Hp in Hends.
  apply andb_true_iff in Hends as [Hlen Heq].
  apply Nat.leb_le in Hlen. apply String.eqb_eq in Heq.
  destruct (slice_last4 text Hlen) as [-> ->].
  split; [exact Heq|].
  pose proof (substring_split text (String.length text - 4) ltac:(lia)) as H.
  replace (String.length text - (String.length text - 4))%nat with 4%nat in H
    by lia.
  now rewrite Heq in H.
Qed.

(** For the placeholder ["dou"], on a text of at least four characters,
    the tag returned is not the literal. *)
Lemma slice_placeholder_dou (text : string) :
  (4 <= String.length text)%nat ->
  slice text (- 4) None <> "dou".
Proof.
  intros Hlen E.
  destruct (slice_last4 text Hlen) as [_ E4]. rewrite E4 in E.
  apply (f_equal String.length) in E.
  assert (Hsub : forall n m s, (n + m <= String.length s)%nat ->
                               String.length (substring n m s) = m).
  { intros n m s. revert n m.
    induction s as [|c s IH]; intros [|n] [|m] H; simpl in *;
      try reflexivity; try lia.
    - f_equal. apply (IH 0%nat). lia.
    - apply IH. lia.
    - apply IH. lia. }
  rewrite Hsub in E by lia. discriminate.
Qed.

(** (C2, at the failing input) Scanning ["Adou"] from offset 0 stops
    when the text ends with the placeholder ["dou"], and returns the
    name [""] and the tag ["Adou"]: the last four characters, not the
    text before the literal and the literal. *)
Theorem extractUntilPlaceholder_dou (k : nat) :
  extractUntilPlaceholder (4 + k) (list_byte_of_string "Adou") (Int 0) ""
  = Ok ("", "Adou", Int 4) /\
  In "dou" placeholders /\
  endsWith "Adou" "dou" = true /\
  forallb (fun p => negb (endsWith "Adou" p || endsWith "Ado" p
                          || endsWith "Ad" p || endsWith "A" p))
    (filter (fun p => negb (p =? "dou")%string) placeholders) = true.
Proof.
  split; [reflexivity|]. split; [simpl; tauto|]. split; reflexivity.
Qed.

(** ** Fuel

    More fuel never changes what a call returns or throws. *)

Lemma refines_refl {A : Type} (r : res A) : refines r r.
Proof. now right. Qed.

Lemma refines_trans {A : Type} (r1 r2 r3 : res A) :
  refines r1 r2 -> refines r2 r3 -> refines r1 r3.
Proof.
  intros [-> | ->]; [now left|]. trivial.
Qed.

Lemma refines_bind {A B : Type} (m1 m2 : res A) (k1 k2 : A -> res B) :
  refines m1 m2 -> (forall a, refines (k1 a) (k2 a)) ->
  refines (bind m1 k1) (bind m2 k2).
Proof.
  intros [-> | ->] Hk; [now left|].
  destruct m2; simpl; trivial; apply refines_refl.
Qed.

Lemma refines_Ok {A : Type} (r1 r2 : res A) (a : A) :
  refines r1 r2 -> r1 = Ok a -> r2 = Ok a.
Proof. intros [-> | ->]; [discriminate|trivial]. Qed.

Ltac mono_step :=
  first
    [ apply refines_refl
    | match goal with
      | H : forall _, _ |- refines _ _ => apply H
      end
    | apply refines_bind; [|intros ?]
    | match goal with
      | |- refines (if ?c then _ else _) _ => destruct c
      | |- refines (match ?x with _ => _ end) _ => destruct x
      end ].

Lemma extractUntilPlaceholder_fuel (fuel : nat) (file : Buffer)
    (offset : number) (prefix : string) :
  refines (extractUntilPlaceholder fuel file offset prefix)
          (extractUntilPlaceholder (S fuel) file offset prefix).
Proof.
  revert offset prefix.
  induction fuel as [|fuel IH]; intros offset prefix; [now left|].
  cbn [extractUntilPlaceholder]. cbv zeta.
  destruct (existsb _ placeholders); [apply refines_refl|].
  apply IH.
Qed.

Section FuelFacts.

Context {double : Type} (unpack_d : Buffer -> option double).

Lemma decoder_fuel (fuel : nat) :
  (forall file o,
      refines (extractProperty unpack_d fuel file o)
              (extractProperty unpack_d (S fuel) file o)) /\
  (forall file o n,
      refines (extractPropertyValue unpack_d fuel file o n)
              (extractPropertyValue unpack_d (S fuel) file o n)) /\
  (forall file o n t,
      refines (extractOsTypeValue unpack_d fuel file o n t)
              (extractOsTypeValue unpack_d (S fuel) file o n t)) /\
  (forall file o n,
      refines (extractObjectClass unpack_d fuel file o n)
              (extractObjectClass unpack_d (S fuel) file o n)) /\
  (forall file o i c ps,
      refines (forProperties unpack_d fuel file o i c ps)
              (forProperties unpack_d (S fuel) file o i c ps)) /\
  (forall file o,
      refines (extractText unpack_d fuel file o)
              (extractText unpack_d (S fuel) file o)) /\
  (forall file l o,
      refines (whileText unpack_d fuel file l o)
              (whileText unpack_d (S fuel) file l o)) /\
  (forall file o,
      refines (extractList unpack_d fuel file o)
              (extractList unpack_d (S fuel) file o)) /\
  (forall file o i c ps,
      refines (forList unpack_d fuel file o i c ps)
              (forList unpack_d (S fuel) file o i c ps)).
Proof.
  induction fuel as [|fuel IH].
  { repeat split; intros; now left. }
  destruct IH as (IHprop & IHvalue & IHos & IHobj & IHprops & IHtext
                  & IHwhile & IHlist & IHitems).
  pose proof extractUntilPlaceholder_fuel as IHscan.
  repeat split; intros.
  - cbn [extractProperty]. repeat mono_step.
  - cbn [extractPropertyValue]. cbv zeta. repeat mono_step.
  - cbn [extractOsTypeValue]. repeat mono_step.
  - cbn [extractObjectClass]. repeat mono_step.
  - cbn [forProperties]. repeat mono_step.
  - cbn [extractText]. cbv zeta. repeat mono_step.
  - cbn [whileText]. cbv zeta. repeat mono_step.
  - cbn [extractList]. cbv zeta. repeat mono_step.
  - cbn [forList]. cbv zeta. repeat mono_step.
Qed.

End FuelFacts.

Lemma refines_le {A : Type} (run : nat -> res A) :
  (forall n, refines (run n) (run (S n))) ->
  forall n m, (n <= m)%nat -> refines (run n) (run m).
Proof.
  intros Hstep n m Hle. induction Hle as [|m Hle IH].
  - apply refines_refl.
  - eapply refines_trans; [exact IH|apply Hstep].
Qed.

(** Two runs that return, return the same. *)
Lemma runs_agree {A : Type} (run : nat -> res A) :
  (forall n, refines (run n) (run (S n))) ->
  forall n m a b, run n = Ok a -> run m = Ok b -> a = b.
Proof.
  intros Hstep n m a b Ha Hb.
  pose proof (refines_Ok _ _ a
                (refines_le run Hstep n (Nat.max n m) (Nat.le_max_l n m)) Ha)
    as Ha'.
  pose proof (refines_Ok _ _ b
                (refines_le run Hstep m (Nat.max n m) (Nat.le_max_r n m)) Hb)
    as Hb'.
  congruence.
Qed.

(** ** Lists and whole files *)

Section ListFacts.

Context {double : Type} (unpack_d : Buffer -> option double).

(** The loop of [extractList], one turn unfolded. *)
Lemma forList_S (fuel : nat) (file : Buffer) (offset : number) (i : Z)
    (count : number) (properties : list (option (typed double))) :
  forList unpack_d (S fuel) file offset i count properties
  = if (Int i <? count)%num
    then
      '(property, newOffset) <-
        extractPropertyValue unpack_d fuel file offset
          (bufferFromAscii (indexToString i)) ;;
      forList unpack_d fuel file newOffset (i + 1) count
        (properties ++ [getOwn property (indexToString i)])
    else Ok (properties, offset).
Proof. reflexivity. Qed.

Lemma extractList_S (fuel : nat) (file : Buffer) (offset : number) :
  extractList unpack_d (S fuel) file offset
  = forList unpack_d fuel file (offset + 4)%num 0
      (parseInt16 (toString_hex (subarray file offset (offset + 4)%num))) [].
Proof. reflexivity. Qed.

(** What the loop of [extractList] returns extends what it had
    collected by one entry for each remaining index. *)
Lemma forList_length (fuel : nat) (file : Buffer) (offset : number) (i n : Z)
    (properties items : list (option (typed double))) (o' : number) :
  i <= n ->
  forList unpack_d fuel file offset i (Int n) properties = Ok (items, o') ->
  exists rest,
    items = (properties ++ rest)%list /\
    Z.of_nat (List.length rest) = n - i.
Proof.
  revert offset i properties.
  induction fuel as [|fuel IH]; intros offset i properties Hin Hrun;
    [discriminate|].
  rewrite forList_S in Hrun. cbn [Num.lt] in Hrun.
  destruct (Z.ltb_spec i n) as [Hlt|Hge].
  - destruct (extractPropertyValue unpack_d fuel file offset _)
      as [[property newOffset]| |]; try discriminate.
    cbn [bind] in Hrun.
    apply IH in Hrun; [|lia].
    destruct Hrun as [rest [-> Hlen]].
    exists (getOwn property (indexToString i) :: rest). split.
    + now rewrite <- app_assoc.
    + cbn [List.length]. lia.
  - injection Hrun as <- <-. exists []. split.
    + now rewrite app_nil_r.
    + simpl. lia.
Qed.

(** One turn of the loop of [extractList] on an unsupported tag. *)
Lemma forList_unsupported_step (fuel : nat) (file : Buffer) (offset : number)
    (i n : Z) (properties : list (option (typed double))) :
  i < n ->
  In (toString_ascii (subarray file offset (offset + 4)%num)) unsupportedTypes ->
  forList unpack_d (S (S (S fuel))) file offset i (Int n) properties
  = forList unpack_d (S (S fuel)) file (offset + 4)%num (i + 1) (Int n)
      (properties ++ [None]).
Proof.
  intros Hlt Htag.
  rewrite forList_S. cbn [Num.lt].
  destruct (Z.ltb_spec i n) as [_|Hge]; [|lia].
  rewrite (extractPropertyValue_unsupported unpack_d fuel file offset
             (bufferFromAscii (indexToString i)) Htag).
  reflexivity.
Qed.

(** The loop of [extractList] run up to index [i] gives the state in
    which the whole loop reaches that index. *)
Lemma forList_reach (fuel1 fuel2 : nat) (file : Buffer) (o : number)
    (j i n : Z) (ps before items : list (option (typed double)))
    (oi o' : number) :
  j <= i -> i <= n ->
  forList unpack_d fuel1 file o j (Int i) ps = Ok (before, oi) ->
  forList unpack_d fuel2 file o j (Int n) ps = Ok (items, o') ->
  exists fuel',
    forList unpack_d fuel' file oi i (Int n) before = Ok (items, o').
Proof.
  intros Hji Hin. revert fuel2 o j ps Hji.
  induction fuel1 as [|fuel1 IH]; intros fuel2 o j ps Hji H1 H2;
    [discriminate|].
  rewrite forList_S in H1. cbn [Num.lt] in H1.
  destruct (Z.ltb_spec j i) as [Hlt|Hge].
  - destruct fuel2 as [|fuel2]; [discriminate|].
    rewrite forList_S in H2. cbn [Num.lt] in H2.
    destruct (Z.ltb_spec j n) as [_|Hjn]; [|lia].
    destruct (extractPropertyValue unpack_d fuel1 file o _)
      as [[p1 o1]| |] eqn:E1; try discriminate.
    destruct (extractPropertyValue unpack_d fuel2 file o _)
      as [[p2 o2]| |] eqn:E2; try discriminate.
    cbn [bind] in H1, H2.
    assert (E : (p1, o1) = (p2, o2)).
    { eapply (runs_agree
                (fun f => extractPropertyValue unpack_d f file o
                            (bufferFromAscii (indexToString j)))); eauto.
      intros f. apply decoder_fuel. }
    injection E as <- <-.
    eapply (IH fuel2); [|exact H1|exact H2]. lia.
  - injection H1 as <- <-.
    assert (j = i) as -> by lia.
    now exists fuel2.
Qed.

(** (C10) In a [VlLs] list of [n] entries, let the loop of
    [extractList] reach the index [i] at the offset [oi], having
    collected [before], and let the tag at [oi] be one of [type],
    [GlbC], [obj ], [alis], [tdta].  Then that turn of the loop raises
    nothing: it appends [undefined] and goes on at [oi + 4] with the
    index [i + 1]; and when [extractList] returns, its output has [n]
    entries, the one at index [i] being [undefined]. *)
Theorem extractList_unsupported_hole (fuel fuelAt : nat) (file : Buffer)
    (offset : number) (n i : Z) (before items : list (option (typed double)))
    (oi o' : number) :
  parseInt16 (toString_hex (subarray file offset (offset + 4)%num)) = Int n ->
  0 <= i < n ->
  forList unpack_d fuelAt file (offset + 4)%num 0 (Int i) [] = Ok (before, oi) ->
  In (toString_ascii (subarray file oi (oi + 4)%num)) unsupportedTypes ->
  (forall fuel',
      forList unpack_d (S (S (S fuel'))) file oi i (Int n) before
      = forList unpack_d (S (S fuel')) file (oi + 4)%num (i + 1) (Int n)
          (before ++ [None])) /\
  (extractList unpack_d fuel file offset = Ok (items, o') ->
   Z.of_nat (List.length items) = n /\
   nth_error items (Z.to_nat i) = Some None).
Proof.
  intros Hcount Hi Hreach Htag. split.
  - intros fuel'. now apply forList_unsupported_step.
  - intros Hrun.
    destruct fuel as [|fuel]; [discriminate|].
    rewrite extractList_S, Hcount in Hrun.
    destruct (forList_length _ _ _ 0 n _ _ _ ltac:(lia) Hrun)
      as [rest [-> Hlen]].
    split; [cbn [app]; lia|].
    destruct (forList_length _ _ _ 0 i _ _ _ ltac:(lia) Hreach)
      as [got [-> Hgot]].
    cbn [app] in *.
    destruct (forList_reach _ _ _ _ 0 i n _ _ _ _ _
                ltac:(lia) ltac:(lia) Hreach Hrun) as [fuel' Hfrom].
    destruct fuel' as [|[|[|fuel']]].
    + discriminate.
    + rewrite forList_S in Hfrom. cbn [Num.lt] in Hfrom.
      destruct (Z.ltb_spec i n); [discriminate|lia].
    + rewrite forList_S in Hfrom. cbn [Num.lt] in Hfrom.
      destruct (Z.ltb_spec i n); [discriminate|lia].
    + rewrite forList_unsupported_step in Hfrom by (trivial; lia).
      destruct (forList_length _ _ _ (i + 1) n _ _ _ ltac:(lia) Hfrom)
        as [more [E _]].
      rewrite E, <- app_assoc.
      replace (Z.to_nat i) with (List.length got) by lia.
      rewrite nth_error_app2 by lia.
      now rewrite Nat.sub_diag.
Qed.

End ListFacts.

Lemma extractList_unsupported_hole_witness :
  parseInt16 (toString_hex (subarray holesBuffer (Int 0) (Int 0 + 4)%num))
  = Int 3 /\
  0 <= 2 < 3 /\
  forList unpackBytes 5 holesBuffer (Int 0 + 4)%num 0 (Int 2) []
  = Ok ([None; Some (Typed "long" (Number (Int 7)))], Int 16) /\
  In (toString_ascii (subarray holesBuffer (Int 16) (Int 16 + 4)%num))
     unsupportedTypes /\
  extractList unpackBytes 6 holesBuffer (Int 0)
  = Ok ([None; Some (Typed "long" (Number (Int 7))); None], Int 20) /\
  Z.of_nat
    (List.length [None; Some (Typed (double := Buffer) "long" (Number (Int 7)));
                  None]) = 3 /\
  nth_error [None; Some (Typed (double := Buffer) "long" (Number (Int 7))); None]
    (Z.to_nat 2) = Some None.
Proof.
  assert (Htag : In (toString_ascii
                       (subarray holesBuffer (Int 16) (Int 16 + 4)%num))
                    unsupportedTypes) by (simpl; tauto).
  assert (Hrun : extractList unpackBytes 6 holesBuffer (Int 0)
                 = Ok ([None; Some (Typed "long" (Number (Int 7))); None],
                       Int 20)) by reflexivity.
  split; [reflexivity|]. split; [lia|]. split; [reflexivity|].
  split; [exact Htag|]. split; [exact Hrun|].
  exact (proj2 (extractList_unsupported_hole unpackBytes 6 5 holesBuffer
                  (Int 0) 3 2 _ _ (Int 16) (Int 20)
                  eq_refl ltac:(lia) eq_refl Htag) Hrun).
Defined.

Section FileFacts.

Context {double : Type} (unpack_d : Buffer -> option double).

(** (C1) On the minimal file, the header is valid, the tool section
    starts at offset 32, and [readTpl] returns the document
    [{ "Brsh": [ { name: "MyBrush", properties:
    [ { Size: { type: "long", value: 42 } } ] } ] }], with any fuel
    from 5 on. *)
Theorem readTpl_minimal (k : nat) :
  validateTplHeader minimalBuffer (Int 0) = (true, Int 16) /\
  moveToToolDataSection minimalBuffer = (true, Int 32) /\
  readTpl unpack_d (5 + k) minimalBuffer
  = Ok [("Brsh",
         [mkToolData "MyBrush"
            [[("Size", Typed "long" (Number (Int 42)))]]])].
Proof.
  split; [reflexivity|]. split; [reflexivity|].
  vm_compute. reflexivity.
Qed.

End FileFacts.

(** ** Fixed-width reads *)

Lemma byte_nibbles (x : byte) :
  16 * Z.of_N (Byte.to_N x / 16) + Z.of_N (Byte.to_N x mod 16)
  = Z.of_N (Byte.to_N x).
Proof.
  rewrite N2Z.inj_div, N2Z.inj_mod. change (Z.of_N 16) with 16.
  pose proof (Z.div_mod (Z.of_N (Byte.to_N x)) 16). lia.
Qed.

(** Parsing the hex dump of a buffer reads it as a big-endian number. *)
Lemma parseDigits_hex (b : Buffer) (acc : Z) :
  parseDigits acc (toString_hex b) = bigEndian acc b.
Proof.
  revert acc. induction b as [|x b IH]; intros acc; [reflexivity|].
  cbn [toString_hex parseDigits bigEndian].
  rewrite hexValue_hexChar by apply byte_high_nibble.
  rewrite hexValue_hexChar by (apply N.mod_lt; discriminate).
  rewrite IH. f_equal.
  pose proof (byte_nibbles x). lia.
Qed.

Lemma bigEndian_bounds (b : Buffer) (acc : Z) :
  0 <= acc ->
  256 ^ Z.of_nat (List.length b) * acc
  <= bigEndian acc b
  < 256 ^ Z.of_nat (List.length b) * (acc + 1).
Proof.
  revert acc. induction b as [|x b IH]; intros acc Hacc.
  - cbn [bigEndian List.length]. change (256 ^ Z.of_nat 0) with 1. lia.
  - cbn [bigEndian List.length].
    pose proof (Byte.to_N_bounded x) as Hx.
    specialize (IH (256 * acc + Z.of_N (Byte.to_N x)) ltac:(lia)).
    rewrite Nat2Z.inj_succ, Z.pow_succ_r by lia.
    assert (Hp : 0 < 256 ^ Z.of_nat (List.length b))
      by (apply Z.pow_pos_nonneg; lia).
    nia.
Qed.

Lemma parseInt16_bigEndian (b : Buffer) :
  b <> [] ->
  parseInt16 (toString_hex b) = Int (roundDouble (bigEndian 0 b)).
Proof.
  destruct b as [|x rest]; [congruence|]. intros _.
  cbn [toString_hex parseInt16].
  rewrite hexValue_hexChar by apply byte_high_nibble.
  now rewrite <- parseDigits_hex.
Qed.

Lemma roundDouble_small (z : Z) : z < 2 ^ 53 -> roundDouble z = z.
Proof.
  intros Hz. unfold roundDouble.
  destruct (Z.ltb_spec z (2 ^ 53)); [reflexivity|lia].
Qed.

Lemma bigEndian_lt (b : Buffer) (k : Z) :
  0 <= k -> Z.of_nat (List.length b) <= k -> 0 <= bigEndian 0 b < 256 ^ k.
Proof.
  intros Hk Hlen. pose proof (bigEndian_bounds b 0 ltac:(lia)) as H.
  assert (256 ^ Z.of_nat (List.length b) <= 256 ^ k)
    by (apply Z.pow_le_mono_r; lia).
  lia.
Qed.

(** (X1) [extractInteger] returns the offset plus 4 and, as value,
    the unsigned big-endian number spelled by the bytes it could read
    at the offset, at most four, below 2^32; the value is [NaN] when it
    could read none.  Inside the buffer these are the four bytes at the
    offset. *)
Theorem extractInteger_big_endian (file : Buffer) (o : Z) :
  let bytes := subarray file (Int o) (Int (o + 4)) in
  extractInteger file (Int o)
  = (match bytes with
     | [] => NaN
     | _ :: _ => Int (bigEndian 0 bytes)
     end, Int (o + 4)) /\
  0 <= bigEndian 0 bytes < 2 ^ 32 /\
  (0 <= o -> o + 4 <= Z.of_nat (List.length file) ->
   bytes = firstn 4 (skipn (Z.to_nat o) file) /\ List.length bytes = 4%nat).
Proof.
  cbv zeta.
  pose proof (subarray_length file o 4 ltac:(lia)) as Hlen.
  assert (Hb : 0 <= bigEndian 0 (subarray file (Int o) (Int (o + 4)))
               < 2 ^ 32).
  { change (2 ^ 32) with (256 ^ 4). apply bigEndian_lt; lia. }
  split; [|split; [exact Hb|]].
  - unfold extractInteger. rewrite add_Int. f_equal.
    destruct (subarray file (Int o) (Int (o + 4))) eqn:E; [reflexivity|].
    rewrite parseInt16_bigEndian by discriminate.
    rewrite roundDouble_small; [reflexivity|]. lia.
  - intros Ho Hfit. rewrite subarray_slice by lia.
    replace (Z.to_nat (o + 4 - o)) with 4%nat by lia.
    split; [reflexivity|].
    rewrite length_firstn, length_skipn. lia.
Qed.

Lemma roundDouble_error (z : Z) :
  2 ^ 53 <= z < 2 ^ 64 -> Z.abs (roundDouble z - z) <= 1024.
Proof.
  intros Hz. unfold roundDouble.
  destruct (Z.ltb_spec z (2 ^ 53)); [lia|].
  assert (Hlo : 53 <= Z.log2 z).
  { change 53 with (Z.log2 (2 ^ 53)). apply Z.log2_le_mono. lia. }
  assert (Hhi : Z.log2 z < 64) by (apply Z.log2_lt_pow2; lia).
  set (s := Z.log2 z - 52).
  assert (Hs : 1 <= s <= 11) by (subst s; lia).
  assert (Hpow : 2 ^ s = 2 * 2 ^ (s - 1)).
  { replace s with (Z.succ (s - 1)) at 1 by lia.
    apply Z.pow_succ_r. lia. }
  assert (Hhalf : 0 < 2 ^ (s - 1) <= 1024).
  { split; [apply Z.pow_pos_nonneg; lia|].
    change 1024 with (2 ^ 10). apply Z.pow_le_mono_r; lia. }
  pose proof (Z.div_mod z (2 ^ s) ltac:(lia)) as Hdm.
  pose proof (Z.mod_pos_bound z (2 ^ s) ltac:(lia)) as Hr.
  set (q := z / 2 ^ s) in *. set (r := z mod 2 ^ s) in *.
  set (h := 2 ^ (s - 1)) in *. set (p := 2 ^ s) in *.
  destruct (Z.ltb_spec r h); [nia|].
  destruct (Z.ltb_spec h r); [nia|].
  destruct (Z.even q); nia.
Qed.

(** (X2) [extractLargeInteger] returns the offset plus 8 and, when
    it could read a byte, a value that is exactly the big-endian number
    spelled by the bytes it read if that number is below 2^53, and
    otherwise differs from it by at most 1024: numbers from 2^53 on are
    rounded to a double. *)
Theorem extractLargeInteger_rounding (file : Buffer) (o : Z) :
  let bytes := subarray file (Int o) (Int (o + 8)) in
  snd (extractLargeInteger file (Int o)) = Int (o + 8) /\
  (bytes = [] -> fst (extractLargeInteger file (Int o)) = NaN) /\
  (bytes <> [] ->
   exists v : Z,
     fst (extractLargeInteger file (Int o)) = Int v /\
     Z.abs (v - bigEndian 0 bytes) <= 1024 /\
     (bigEndian 0 bytes < 2 ^ 53 -> v = bigEndian 0 bytes)).
Proof.
  cbv zeta. split; [reflexivity|]. split.
  - intros E. unfold extractLargeInteger. rewrite add_Int, E. reflexivity.
  - intros Hne. unfold extractLargeInteger. rewrite add_Int. cbn [fst].
    rewrite parseInt16_bigEndian by exact Hne.
    eexists. split; [reflexivity|].
    pose proof (subarray_length file o 8 ltac:(lia)) as Hlen.
    pose proof (bigEndian_lt (subarray file (Int o) (Int (o + 8))) 8
                  ltac:(lia) ltac:(lia)) as Hb.
    change (256 ^ 8) with (2 ^ 64) in Hb.
    split.
    + destruct (Z.lt_ge_cases
                  (bigEndian 0 (subarray file (Int o) (Int (o + 8))))
                  (2 ^ 53)) as [Hs|Hs].
      * rewrite roundDouble_small by exact Hs. lia.
      * apply roundDouble_error. lia.
    + intros Hs. now apply roundDouble_small.
Qed.

Lemma extractLargeInteger_rounding_witness :
  [x00; x20; x00; x00; x00; x00; x00; x01] <> [] /\
  exists v : Z,
    fst (extractLargeInteger [x00; x20; x00; x00; x00; x00; x00; x01] (Int 0))
    = Int v /\
    Z.abs (v - 9007199254740993) <= 1024.
Proof.
  assert (Hne : subarray [x00; x20; x00; x00; x00; x00; x00; x01]
                  (Int 0) (Int (0 + 8)) <> []) by discriminate.
  split; [discriminate|].
  destruct (proj2 (proj2 (extractLargeInteger_rounding
                            [x00; x20; x00; x00; x00; x00; x00; x01] 0)) Hne)
    as [v [Hv [Herr _]]].
  exists v. split; [exact Hv|exact Herr].
Defined.

(** (X3) [extractBoolean] returns the offset plus 1, and [true]
    exactly when it could read a byte at the offset and that byte is
    not 0: past the end of the buffer it returns [false]. *)
Theorem extractBoolean_nonzero (file : Buffer) (o : Z) :
  snd (extractBoolean file (Int o)) = Int (o + 1) /\
  (fst (extractBoolean file (Int o)) = true
   <-> exists b, subarray file (Int o) (Int (o + 1)) = [b] /\ b <> x00).
Proof.
  split; [reflexivity|].
  unfold extractBoolean. rewrite add_Int. cbn [fst].
  pose proof (subarray_length file o 1 ltac:(lia)) as Hlen.
  destruct (subarray file (Int o) (Int (o + 1))) as [|b [|b' rest]] eqn:E.
  - split; [discriminate|]. intros [b [H _]]. discriminate.
  - rewrite parseInt16_bigEndian by discriminate.
    cbn [bigEndian].
    pose proof (Byte.to_N_bounded b) as Hb.
    rewrite roundDouble_small by lia.
    cbn [Num.truthy]. split.
    + intros H. exists b. split; [reflexivity|].
      intros ->. discriminate H.
    + intros [b0 [Hb0 Hnz]]. injection Hb0 as <-.
      apply negb_true_iff, Z.eqb_neq.
      intros H0. apply Hnz.
      assert (Byte.to_N b = Byte.to_N x00) as Hn by (simpl; lia).
      apply (f_equal Byte.of_N) in Hn. rewrite !Byte.of_to_N in Hn.
      congruence.
  - simpl in Hlen. lia.
Qed.

Lemma extractInteger_big_endian_witness :
  0 <= 0 /\ 0 + 4 <= Z.of_nat (List.length directTextBuffer) /\
  extractInteger directTextBuffer (Int 0) = (Int 2, Int 4) /\
  List.length (subarray directTextBuffer (Int 0) (Int (0 + 4))) = 4%nat.
Proof.
  pose proof (extractInteger_big_endian directTextBuffer 0) as (Hv & _ & Hin).
  split; [lia|]. split; [simpl; lia|]. split; [exact Hv|].
  apply Hin; simpl; lia.
Defined.

(** ** Length-prefixed fields *)

(** A field of four bytes inside the buffer, read as a number. *)
Lemma field_inside (file : Buffer) (o : Z) :
  0 <= o -> o + 4 <= Z.of_nat (List.length file) ->
  parseInt16 (toString_hex (subarray file (Int o) (Int (o + 4))))
  = Int (bigEndian 0 (firstn 4 (skipn (Z.to_nat o) file))) /\
  0 <= bigEndian 0 (firstn 4 (skipn (Z.to_nat o) file)) < 2 ^ 32.
Proof.
  intros Ho Hfit. rewrite subarray_slice by lia.
  replace (Z.to_nat (o + 4 - o)) with 4%nat by lia.
  set (bytes := firstn 4 (skipn (Z.to_nat o) file)).
  assert (Hlen : List.length bytes = 4%nat).
  { subst bytes. rewrite length_firstn, length_skipn. lia. }
  assert (Hb : 0 <= bigEndian 0 bytes < 2 ^ 32).
  { change (2 ^ 32) with (256 ^ 4). apply bigEndian_lt; lia. }
  split; [|exact Hb].
  rewrite parseInt16_bigEndian.
  - rewrite roundDouble_small; [reflexivity|lia].
  - intros E. rewrite E in Hlen. discriminate.
Qed.

Lemma slice_inside (file : Buffer) (a k : Z) :
  0 <= a -> 0 <= k -> a + k <= Z.of_nat (List.length file) ->
  subarray file (Int a) (Int (a + k))
  = firstn (Z.to_nat k) (skipn (Z.to_nat a) file) /\
  List.length (subarray file (Int a) (Int (a + k))) = Z.to_nat k.
Proof.
  intros Ha Hk Hfit. rewrite subarray_slice by lia.
  replace (a + k - a) with k by lia. split; [reflexivity|].
  rewrite length_firstn, length_skipn. lia.
Qed.

(** (X4) A label whose length field holds [L > 0] and which lies
    inside the buffer: [extractLabel] returns exactly the [L] bytes
    after the length field and the offset just after them, and
    [extractClass] returns their ASCII decoding with the same offset. *)
Theorem extractLabel_length_prefixed (file : Buffer) (o L : Z) :
  0 <= o -> o + 4 <= Z.of_nat (List.length file) ->
  bigEndian 0 (firstn 4 (skipn (Z.to_nat o) file)) = L ->
  0 < L -> o + 4 + L <= Z.of_nat (List.length file) ->
  extractLabel file (Int o)
  = (firstn (Z.to_nat L) (skipn (Z.to_nat (o + 4)) file), Int (o + 4 + L)) /\
  List.length (fst (extractLabel file (Int o))) = Z.to_nat L /\
  extractClass file (Int o)
  = (toString_ascii (firstn (Z.to_nat L) (skipn (Z.to_nat (o + 4)) file)),
     Int (o + 4 + L)).
Proof.
  intros Ho Hfit HL Hpos Hin.
  destruct (field_inside file o Ho Hfit) as [Hread _]. rewrite HL in Hread.
  destruct (slice_inside file (o + 4) L ltac:(lia) ltac:(lia) ltac:(lia))
    as [Hs Hl].
  assert (E : extractLabel file (Int o)
              = (firstn (Z.to_nat L) (skipn (Z.to_nat (o + 4)) file),
                 Int (o + 4 + L))).
  { unfold extractLabel. rewrite !add_Int, Hread.
    assert (Hnz : (Int L === 0)%num = false)
      by (simpl; apply Z.eqb_neq; lia).
    rewrite Hnz, !add_Int, Hs. reflexivity. }
  split; [exact E|]. split.
  - rewrite E. cbn [fst]. rewrite <- Hs. exact Hl.
  - unfold extractClass. rewrite E. reflexivity.
Qed.

Lemma extractLabel_length_prefixed_witness :
  extractLabel nullPropertyBuffer (Int 0)
  = (list_byte_of_string "null", Int 8) /\
  extractClass nullPropertyBuffer (Int 0) = ("null", Int 8).
Proof.
  pose proof (extractLabel_length_prefixed nullPropertyBuffer 0 4
                ltac:(lia) ltac:(simpl; lia) eq_refl ltac:(lia)
                ltac:(simpl; lia)) as (Hl & _ & Hc).
  split; [exact Hl|exact Hc].
Defined.

(** (X5) An enum that lies inside the buffer: with [L1] and [L2]
    the numbers in its two length fields, each read as 4 when it is 0,
    [extractEnum] returns the ASCII decoding of the [L1] bytes after
    the first length field as class id, that of the [L2] bytes after
    the second as value, and the offset just after them. *)
Theorem extractEnum_length_prefixed (file : Buffer) (o L1 L2 : Z) :
  0 <= o -> o + 4 <= Z.of_nat (List.length file) ->
  enumLength (bigEndian 0 (firstn 4 (skipn (Z.to_nat o) file))) = L1 ->
  o + 4 + L1 + 4 <= Z.of_nat (List.length file) ->
  enumLength
    (bigEndian 0 (firstn 4 (skipn (Z.to_nat (o + 4 + L1)) file))) = L2 ->
  o + 4 + L1 + 4 + L2 <= Z.of_nat (List.length file) ->
  extractEnum file (Int o)
  = ((toString_ascii (firstn (Z.to_nat L1) (skipn (Z.to_nat (o + 4)) file)),
      toString_ascii
        (firstn (Z.to_nat L2) (skipn (Z.to_nat (o + 4 + L1 + 4)) file))),
     Int (o + 4 + L1 + 4 + L2)).
Proof.
  intros Ho Hfit H1 Hfit1 H2 Hfit2.
  destruct (field_inside file o Ho Hfit) as [Hr1 Hb1].
  assert (HL1 : 0 < L1).
  { rewrite <- H1. unfold enumLength.
    destruct (_ =? 0) eqn:E; [lia|apply Z.eqb_neq in E; lia]. }
  destruct (field_inside file (o + 4 + L1) ltac:(lia) ltac:(lia))
    as [Hr2 Hb2].
  assert (HL2 : 0 < L2).
  { rewrite <- H2. unfold enumLength.
    destruct (_ =? 0) eqn:E; [lia|apply Z.eqb_neq in E; lia]. }
  unfold extractEnum. rewrite !add_Int, Hr1.
  assert (E1 : (if (Int (bigEndian 0 (firstn 4 (skipn (Z.to_nat o) file)))
                    === 0)%num
                then Int 4
                else Int (bigEndian 0 (firstn 4 (skipn (Z.to_nat o) file))))
               = Int L1).
  { cbn [Num.strictEq]. rewrite <- H1. unfold enumLength.
    destruct (_ =? 0); reflexivity. }
  rewrite E1, !add_Int, Hr2.
  assert (E2 : (if (Int (bigEndian 0
                           (firstn 4 (skipn (Z.to_nat (o + 4 + L1)) file)))
                    === 0)%num
                then Int 4
                else Int (bigEndian 0
                            (firstn 4 (skipn (Z.to_nat (o + 4 + L1)) file))))
               = Int L2).
  { cbn [Num.strictEq]. rewrite <- H2. unfold enumLength.
    destruct (_ =? 0); reflexivity. }
  rewrite E2, !add_Int.
  destruct (slice_inside file (o + 4) L1 ltac:(lia) ltac:(lia) ltac:(lia))
    as [-> _].
  destruct (slice_inside file (o + 4 + L1 + 4) L2
              ltac:(lia) ltac:(lia) ltac:(lia)) as [-> _].
  reflexivity.
Qed.

Lemma extractEnum_length_prefixed_witness :
  extractEnum enumBuffer (Int 0) = (("Styl", "solid"), Int 17).
Proof.
  exact (extractEnum_length_prefixed enumBuffer 0 4 5
           ltac:(lia) ltac:(simpl; lia) eq_refl ltac:(simpl; lia)
           eq_refl ltac:(simpl; lia)).
Defined.

(** ** Text *)

Lemma fromHex_toString_hex (b : Buffer) : fromHex (toString_hex b) = b.
Proof.
  induction b as [|x b IH]; [reflexivity|].
  cbn [toString_hex fromHex].
  rewrite hexValue_hexChar by apply byte_high_nibble.
  rewrite hexValue_hexChar by (apply N.mod_lt; discriminate).
  rewrite byte_nibbles, N2Z.id, Byte.of_to_N, IH. reflexivity.
Qed.

Lemma removeNul_clean (s : string) :
  Forall (fun c => c <> zero) (list_ascii_of_string (removeNul s)).
Proof.
  induction s as [|c s IH]; simpl; [constructor|].
  destruct (Ascii.eqb_spec c zero); [exact IH|].
  simpl. now constructor.
Qed.

Lemma removeNul_7bit (s : string) :
  Forall (fun c => (N_of_ascii c < 128)%N) (list_ascii_of_string s) ->
  Forall (fun c => (N_of_ascii c < 128)%N)
    (list_ascii_of_string (removeNul s)).
Proof.
  induction s as [|c s IH]; simpl; intros H; [constructor|].
  inversion H; subst.
  destruct (Ascii.eqb c zero); [now apply IH|].
  simpl. constructor; [assumption|now apply IH].
Qed.

Lemma toString_ascii_7bit (b : Buffer) :
  Forall (fun c => (N_of_ascii c < 128)%N)
    (list_ascii_of_string (toString_ascii b)).
Proof.
  unfold toString_ascii. rewrite list_ascii_of_string_of_list_ascii.
  induction b as [|x b IH]; simpl; constructor; trivial.
  unfold asciiChar. rewrite N_ascii_embedding.
  - apply byte_7bit.
  - pose proof (byte_7bit x). lia.
Qed.

(** The text that [extractText] builds from the bytes of a text field. *)
Lemma text_of_bytes (b : Buffer) :
  removeNul (toString_ascii (fromHex (toString_hex b)))
  = removeNul (toString_ascii b).
Proof. now rewrite fromHex_toString_hex. Qed.

Lemma removeNul_utf16be (s : string) :
  Forall (fun c => c <> zero /\ (N_of_ascii c < 128)%N)
    (list_ascii_of_string s) ->
  removeNul (toString_ascii (utf16be s)) = s.
Proof.
  unfold utf16be, toString_ascii.
  induction s as [|c s IH]; intros H; [reflexivity|].
  cbn [list_ascii_of_string] in H. inversion H as [|? ? [Hnz H7] Hrest]; subst.
  change (list_byte_of_string (String c s))
    with (byte_of_ascii c :: list_byte_of_string s).
  cbn [flat_map app map string_of_list_ascii removeNul].
  change (asciiChar x00) with zero. rewrite Ascii.eqb_refl.
  assert (Ec : asciiChar (byte_of_ascii c) = c).
  { unfold asciiChar.
    assert (Hn : Byte.to_N (byte_of_ascii c) = N_of_ascii c)
      by (apply Byte.to_of_N; symmetry; apply byte_of_ascii_via_N).
    rewrite Hn. rewrite <- (ascii_N_embedding c) at 2. f_equal.
    change 127%N with (N.ones 7). rewrite N.land_ones.
    apply N.mod_small. exact H7. }
  rewrite Ec.
  destruct (Ascii.eqb_spec c zero); [contradiction|].
  f_equal. now apply IH.
Qed.

Section TextFacts.

Context {double : Type} (unpack_d : Buffer -> option double).

(** [extractText], one call unfolded. *)
Lemma extractText_S (fuel : nat) (file : Buffer) (offset : number) :
  extractText unpack_d (S fuel) file offset
  = '(length, offset) <-
      whileText unpack_d fuel file
        (parseInt16 (toString_hex (subarray file offset (offset + 4)%num)))
        (offset + 4)%num ;;
    Ok (removeNul
          (toString_ascii
             (fromHex
                (toString_hex
                   (subarray file offset (offset + length * 2)%num)))),
        (offset + length * 2)%num).
Proof. reflexivity. Qed.

(** (X6) A text field whose length field holds [L], not 0:
    [extractText] returns the [2 * L] bytes after the length field,
    each decoded as ASCII (high bit cleared) with the NUL characters
    dropped, and the offset just after them.  When these bytes are the
    two-byte big-endian encoding of a string of non-NUL 7-bit
    characters, the text returned is that string. *)
Theorem extractText_direct (fuel : nat) (file : Buffer) (o L : Z) :
  parseInt16 (toString_hex (subarray file (Int o) (Int (o + 4)))) = Int L ->
  L <> 0 ->
  extractText unpack_d (S (S fuel)) file (Int o)
  = Ok (removeNul
          (toString_ascii (subarray file (Int (o + 4)) (Int (o + 4 + L * 2)))),
        Int (o + 4 + L * 2)) /\
  (forall s : string,
      subarray file (Int (o + 4)) (Int (o + 4 + L * 2)) = utf16be s ->
      Forall (fun c => c <> zero /\ (N_of_ascii c < 128)%N)
        (list_ascii_of_string s) ->
      extractText unpack_d (S (S fuel)) file (Int o)
      = Ok (s, Int (o + 4 + L * 2))).
Proof.
  intros HL Hnz.
  assert (E : extractText unpack_d (S (S fuel)) file (Int o)
              = Ok (removeNul
                      (toString_ascii
                         (subarray file (Int (o + 4)) (Int (o + 4 + L * 2)))),
                    Int (o + 4 + L * 2))).
  { rewrite extractText_S, !add_Int, HL. cbn [whileText].
    assert (E0 : (Int L === 0)%num = false) by (simpl; now apply Z.eqb_neq).
    rewrite E0. cbn [bind]. cbn [Num.mul Num.add].
    now rewrite text_of_bytes. }
  split; [exact E|].
  intros s Hs Hclean. rewrite E, Hs, removeNul_utf16be; trivial.
Qed.

(** (X7) Whatever the path through [extractText], the text it
    returns holds no NUL character and only 7-bit characters. *)
Theorem extractText_clean (fuel : nat) (file : Buffer) (offset : number)
    (text : string) (o' : number) :
  extractText unpack_d fuel file offset = Ok (text, o') ->
  Forall (fun c => c <> zero /\ (N_of_ascii c < 128)%N)
    (list_ascii_of_string text).
Proof.
  intros Hrun. destruct fuel as [|fuel]; [discriminate|].
  rewrite extractText_S in Hrun.
  destruct (whileText unpack_d fuel file _ _) as [[l o1]| |];
    try discriminate.
  cbn [bind] in Hrun. injection Hrun as <- _.
  apply Forall_and.
  - apply removeNul_clean.
  - apply removeNul_7bit, toString_ascii_7bit.
Qed.

End TextFacts.

Lemma extractText_direct_witness :
  parseInt16 (toString_hex (subarray directTextBuffer (Int 0) (Int (0 + 4))))
  = Int 2 /\
  2 <> 0 /\
  subarray directTextBuffer (Int (0 + 4)) (Int (0 + 4 + 2 * 2)) = utf16be "Hi" /\
  extractText unpackBytes 2 directTextBuffer (Int 0) = Ok ("Hi", Int 8).
Proof.
  split; [reflexivity|]. split; [discriminate|]. split; [reflexivity|].
  apply (proj2 (extractText_direct unpackBytes 0 directTextBuffer 0 2
                  eq_refl ltac:(discriminate)) "Hi" eq_refl).
  repeat constructor; try discriminate.
Defined.

Lemma extractText_clean_witness :
  extractText unpackBytes 2 directTextBuffer (Int 0) = Ok ("Hi", Int 8) /\
  Forall (fun c => c <> zero /\ (N_of_ascii c < 128)%N)
    (list_ascii_of_string "Hi").
Proof.
  split; [reflexivity|].
  exact (extractText_clean unpackBytes 2 directTextBuffer (Int 0) "Hi" (Int 8)
           eq_refl).
Defined.

(** ** The scan, from its input to its output *)

Lemma substring_length (s : string) (n m : nat) :
  (n + m <= String.length s)%nat -> String.length (substring n m s) = m.
Proof.
  revert n m. induction s as [|c s IH]; intros [|n] [|m] H; simpl in *;
    try reflexivity; try lia.
  - f_equal. apply (IH 0%nat). lia.
  - apply IH. lia.
  - apply IH. lia.
Qed.

(** The two slices of the scan put together give the text back, and
    the second one holds its last four characters. *)
Lemma slices_cover (text : string) :
  (slice text 0 (Some (- 4)) ++ slice text (- 4) None)%string = text /\
  String.length (slice text (- 4) None) = Nat.min 4 (String.length text).
Proof.
  destruct (Nat.le_gt_cases 4 (String.length text)) as [Hlen|Hlen].
  - destruct (slice_last4 text Hlen) as [-> ->]. split.
    + pose proof (substring_split text (String.length text - 4) ltac:(lia))
        as H.
      replace (String.length text - (String.length text - 4))%nat
        with 4%nat in H by lia.
      exact H.
    + rewrite substring_length by lia. lia.
  - unfold slice, sliceIndex.
    change (0 <? 0) with false. change (- 4 <? 0) with true. cbv iota.
    replace (Z.to_nat (Z.min 0 (Z.of_nat (String.length text)))) with 0%nat
      by lia.
    replace (Z.to_nat
               (Z.max (Z.of_nat (String.length text) + - 4) 0
                - Z.min 0 (Z.of_nat (String.length text))))
      with 0%nat by lia.
    replace (Z.to_nat (Z.max (Z.of_nat (String.length text) + - 4) 0))
      with 0%nat by lia.
    replace (Z.to_nat
               (Z.of_nat (String.length text)
                - Z.max (Z.of_nat (String.length text) + - 4) 0))
      with (String.length text) by lia.
    rewrite substring_all. split.
    + destruct text; reflexivity.
    + lia.
Qed.

(** (X8) When the scan returns from a non-negative offset [o], it
    has read [k >= 1] bytes and returns the offset [o + k]; the name
    and the tag it returns, put together, are the prefix followed by
    the ASCII decoding of these [k] bytes; the tag holds the last four
    characters of that text (all of it when it is shorter); and [k] is
    the first number of bytes after which the text ends with a
    placeholder. *)
Theorem extractUntilPlaceholder_text (fuel : nat) (file : Buffer) (o : Z)
    (prefix name tag : string) (o' : number) :
  0 <= o ->
  extractUntilPlaceholder fuel file (Int o) prefix = Ok (name, tag, o') ->
  exists k : Z,
    1 <= k /\ o' = Int (o + k) /\
    (name ++ tag)%string
    = (prefix ++ toString_ascii (subarray file (Int o) (Int (o + k))))%string /\
    String.length tag
    = Nat.min 4 (String.length (name ++ tag)%string) /\
    endsWithPlaceholder (name ++ tag)%string = true /\
    (forall j, 1 <= j < k ->
       endsWithPlaceholder
         (prefix ++ toString_ascii (subarray file (Int o) (Int (o + j))))
       = false).
Proof.
  revert o prefix.
  induction fuel as [|fuel IH]; intros o prefix Ho Hrun; [discriminate|].
  cbn [extractUntilPlaceholder] in Hrun. cbv zeta in Hrun.
  rewrite add_Int in Hrun.
  destruct (existsb _ placeholders) eqn:E.
  - injection Hrun as <- <- <-.
    exists 1. destruct (slices_cover
                 (prefix ++ toString_ascii (subarray file (Int o) (Int (o + 1)))))
      as [Hcover Hlen].
    change (Z.of_nat (String.length (nth 0 placeholders ""))) with 4.
    rewrite Hcover.
    split; [lia|]. split; [reflexivity|]. split; [reflexivity|].
    split; [exact Hlen|]. split; [exact E|].
    intros j Hj. lia.
  - destruct (IH (o + 1) _ ltac:(lia) Hrun)
      as (k & Hk & Ho' & Htext & Hlen & Hends & Hfirst).
    assert (Hjoin : forall j, 1 <= j ->
               ((prefix ++ toString_ascii (subarray file (Int o) (Int (o + 1))))
                ++ toString_ascii
                     (subarray file (Int (o + 1)) (Int (o + 1 + j))))%string
               = (prefix ++ toString_ascii
                              (subarray file (Int o) (Int (o + (1 + j)))))%string).
    { intros j Hj. rewrite append_assoc, <- toString_ascii_app.
      rewrite subarray_split by lia.
      now replace (o + 1 + j) with (o + (1 + j)) by lia. }
    exists (1 + k).
    split; [lia|]. split; [rewrite Ho'; f_equal; lia|].
    split; [now rewrite Htext, Hjoin|].
    split; [exact Hlen|]. split; [exact Hends|].
    intros j Hj.
    destruct (Z.eq_dec j 1) as [->|Hne]; [exact E|].
    replace j with (1 + (j - 1)) by lia.
    rewrite <- Hjoin by lia. apply Hfirst. lia.
Qed.

Lemma extractUntilPlaceholder_text_witness :
  0 <= 2 /\
  extractUntilPlaceholder 9 scanBuffer (Int 2) "Sz"
  = Ok ("SzAB", "long", Int 8) /\
  exists k : Z,
    1 <= k /\ Int 8 = Int (2 + k) /\
    ("SzAB" ++ "long")%string
    = ("Sz" ++ toString_ascii (subarray scanBuffer (Int 2) (Int (2 + k))))%string.
Proof.
  split; [lia|]. split; [reflexivity|].
  destruct (extractUntilPlaceholder_text 9 scanBuffer 2 "Sz" "SzAB" "long"
              (Int 8) ltac:(lia) eq_refl) as (k & Hk & Ho & Ht & _).
  exists k. split; [exact Hk|]. split; [exact Ho|exact Ht].
Defined.

(** ** The decoded tree *)

Lemma wellTagged_Properties {double : Type}
    (ps : list (Property double)) :
  wellTagged (Properties ps) <-> Forall propertyOk ps.
Proof.
  induction ps as [|p ps IH].
  - split; [constructor|exact (fun _ => I)].
  - change (wellTagged (Properties (p :: ps)))
      with ((List.length p <= 1)%nat /\
            (fix entries (q : list (string * typed double)) : Prop :=
               match q with
               | [] => True
               | (_, t) :: q' => typedOk t /\ entries q'
               end) p /\
            wellTagged (Properties ps)).
    assert (He : (fix entries (q : list (string * typed double)) : Prop :=
                    match q with
                    | [] => True
                    | (_, t) :: q' => typedOk t /\ entries q'
                    end) p
                 <-> Forall (fun e => typedOk (snd e)) p).
    { induction p as [|[k t] p IHp].
      - split; [constructor|exact (fun _ => I)].
      - split.
        + intros [Ht Hq]. constructor; [exact Ht|now apply IHp].
        + intros H. inversion H; subst. split; [assumption|now apply IHp]. }
    rewrite He, IH. unfold propertyOk. split.
    + intros (Hl & Hp & Hps). constructor; [now split|assumption].
    + intros H. inversion H as [|? ? [Hl Hp] Hps]; subst. tauto.
Qed.

Lemma wellTagged_Items {double : Type} (items : list (option (typed double))) :
  wellTagged (Items items) <-> Forall itemOk items.
Proof.
  induction items as [|[t|] items IH].
  - split; [constructor|exact (fun _ => I)].
  - change (wellTagged (Items (Some t :: items)))
      with (typedOk t /\ wellTagged (Items items)).
    rewrite IH. split.
    + intros [Ht Hi]. now constructor.
    + intros H. inversion H; subst. now split.
  - change (wellTagged (Items (None :: items)))
      with (wellTagged (Items items)).
    rewrite IH. split.
    + intros Hi. now constructor.
    + intros H. now inversion H.
Qed.

Lemma getOwn_In {A : Type} (obj : list (string * A)) (key : string) (v : A) :
  getOwn obj key = Some v -> In (key, v) obj.
Proof.
  induction obj as [|[k x] obj IH]; simpl; [discriminate|].
  destruct (String.eqb_spec k key) as [->|_].
  - intros H. injection H as ->. now left.
  - intros H. right. now apply IH.
Qed.

Section TreeFacts.

Context {double : Type} (unpack_d : Buffer -> option double).

Lemma extractProperty_S (fuel : nat) (file : Buffer) (offset : number) :
  extractProperty unpack_d (S fuel) file offset
  = let '(propertyName, newOffset) := extractLabel file offset in
    if negb (toString_ascii propertyName =? "null")%string
    then extractPropertyValue unpack_d fuel file newOffset propertyName
    else Ok ([], newOffset).
Proof. reflexivity. Qed.

Lemma forProperties_S (fuel : nat) (file : Buffer) (offset : number) (i : Z)
    (propertyCount : number) (properties : list (Property double)) :
  forProperties unpack_d (S fuel) file offset i propertyCount properties
  = if (Int i <? propertyCount)%num
    then
      '(property, newOffset) <- extractProperty unpack_d fuel file offset ;;
      forProperties unpack_d fuel file newOffset (i + 1) propertyCount
        (properties ++ [property])
    else Ok (properties, offset).
Proof. reflexivity. Qed.

Lemma extractObjectClass_S (fuel : nat) (file : Buffer) (offset : number)
    (name : string) :
  extractObjectClass unpack_d (S fuel) file offset name
  = '(offset, propertyCount) <-
      (if (name =? "Grad")%string
       then
         '(_, offset) <- extractText unpack_d fuel file offset ;;
         Ok (offset, Int 4)
       else
         let offset := (offset + 6)%num in
         let offset := snd (extractLabel file offset) in
         let propertyCount :=
           parseInt16
             (toString_hex (subarray file offset (offset + 4)%num)) in
         Ok ((offset + 4)%num, propertyCount)) ;;
    forProperties unpack_d fuel file offset 0 propertyCount [].
Proof. reflexivity. Qed.

Lemma extractOsTypeValue_S (fuel : nat) (file : Buffer) (offset : number)
    (propertyName propertyType : string) :
  extractOsTypeValue unpack_d (S fuel) file offset propertyName propertyType
  = match typeHandlers propertyType with
    | Some handler =>
        '(value, newOffset) <-
          match handler with
          | Objc =>
              '(v, o) <-
                extractObjectClass unpack_d fuel file offset propertyName ;;
              Ok (Properties v, o)
          | VlLs =>
              '(v, o) <- extractList unpack_d fuel file offset ;;
              Ok (Items v, o)
          | doub =>
              '(v, o) <- extractDouble unpack_d file offset ;;
              Ok (Double v, o)
          | UntF =>
              '(v, o) <- extractUnitFloat unpack_d file offset ;;
              Ok (UnitFloat (fst v) (snd v), o)
          | TEXT =>
              '(v, o) <- extractText unpack_d fuel file offset ;;
              Ok (Text v, o)
          | enum =>
              let '(v, o) := extractEnum file offset in
              Ok (Enum (fst v) (snd v), o)
          | long =>
              let '(v, o) := extractInteger file offset in
              Ok (Number v, o)
          | comp =>
              let '(v, o) := extractLargeInteger file offset in
              Ok (Number v, o)
          | bool_ =>
              let '(v, o) := extractBoolean file offset in
              Ok (Boolean v, o)
          end ;;
        Ok (Some {| name := propertyName;
                    os_type := propertyType;
                    value := value |},
            newOffset)
    | None =>
        if existsb (String.eqb propertyType) unsupportedTypes
        then Ok (None, offset)
        else
          '(nameFound, newPropertyType, newOffset) <-
            extractUntilPlaceholder fuel file offset
              (propertyName ++ propertyType)%string ;;
          extractOsTypeValue unpack_d fuel file newOffset nameFound
            newPropertyType
    end.
Proof. reflexivity. Qed.

(** The decoders of the recursive family return well-tagged values. *)
Lemma decoder_wellTagged (fuel : nat) :
  (forall file o,
      afterP (fun r => propertyOk (fst r))
        (extractProperty unpack_d fuel file o)) /\
  (forall file o n,
      afterP (fun r => propertyOk (fst r))
        (extractPropertyValue unpack_d fuel file o n)) /\
  (forall file o n t,
      afterP (fun r => match fst r with
                       | Some pv => typedOk (Typed (os_type pv) (value pv))
                       | None => True
                       end)
        (extractOsTypeValue unpack_d fuel file o n t)) /\
  (forall file o n,
      afterP (fun r => Forall propertyOk (fst r))
        (extractObjectClass unpack_d fuel file o n)) /\
  (forall file o i c ps,
      Forall propertyOk ps ->
      afterP (fun r => Forall propertyOk (fst r))
        (forProperties unpack_d fuel file o i c ps)) /\
  (forall file o,
      afterP (fun r => Forall itemOk (fst r))
        (extractList unpack_d fuel file o)) /\
  (forall file o i c ps,
      Forall itemOk ps ->
      afterP (fun r => Forall itemOk (fst r))
        (forList unpack_d fuel file o i c ps)).
Proof.
  induction fuel as [|fuel IH].
  { repeat split; intros; exact I. }
  destruct IH as (IHprop & IHvalue & IHos & IHobj & IHprops & IHlist
                  & IHitems).
  assert (Hempty : propertyOk (@nil (string * typed double))).
  { split; [simpl; lia|constructor]. }
  repeat split.
  - intros file o. rewrite extractProperty_S.
    destruct (extractLabel file o) as [propertyName newOffset].
    destruct (negb _); [apply IHvalue|exact Hempty].
  - intros file o n. rewrite extractPropertyValue_S.
    eapply afterP_bind; [apply IHos|].
    intros [[pv|] newOffset] H; cbn [fst] in H; cbn [afterP fst].
    + split; [simpl; lia|]. constructor; [exact H|constructor].
    + exact Hempty.
  - intros file o n t. rewrite extractOsTypeValue_S.
    destruct (typeHandlers t) as [handler|] eqn:Eh.
    + assert (Ht : match handler with
                   | Objc => t = "Objc" | VlLs => t = "VlLs"
                   | doub => t = "doub" | UntF => t = "UntF"
                   | TEXT => t = "TEXT" | enum => t = "enum"
                   | long => t = "long" | comp => t = "comp"
                   | bool_ => t = "bool"
                   end).
      { unfold typeHandlers in Eh.
        repeat match type of Eh with
               | (if (?a =? ?b)%string then _ else _) = _ =>
                   destruct (String.eqb_spec a b);
                   [injection Eh as <-; assumption|]
               end.
        discriminate. }
      apply afterP_bind
        with (Q := fun r => tagMatches t (fst r) /\ wellTagged (fst r)).
      * destruct handler.
        -- eapply afterP_bind; [apply IHobj|].
           intros [v o'] H. cbn [afterP fst] in *.
           split; [exact Ht|now apply wellTagged_Properties].
        -- eapply afterP_bind; [apply IHlist|].
           intros [v o'] H. cbn [afterP fst] in *.
           split; [exact Ht|now apply wellTagged_Items].
        -- destruct (extractDouble unpack_d file o) as [[v o']| |];
             try exact I. cbn. split; [exact Ht|exact I].
        -- destruct (extractUnitFloat unpack_d file o) as [[v o']| |];
             try exact I. cbn. split; [exact Ht|exact I].
        -- destruct (extractText unpack_d fuel file o) as [[v o']| |];
             try exact I. cbn. split; [exact Ht|exact I].
        -- destruct (extractEnum file o) as [v o'].
           cbn. split; [exact Ht|exact I].
        -- destruct (extractInteger file o) as [v o'].
           cbn. split; [left; exact Ht|exact I].
        -- destruct (extractLargeInteger file o) as [v o'].
           cbn. split; [right; exact Ht|exact I].
        -- destruct (extractBoolean file o) as [v o'].
           cbn. split; [exact Ht|exact I].
      * intros [v o'] H. exact H.
    + destruct (existsb _ unsupportedTypes); [exact I|].
      eapply afterP_bind with (Q := fun _ => True).
      * destruct (extractUntilPlaceholder fuel file o _); exact I.
      * intros [[nameFound newPropertyType] newOffset] _. apply IHos.
  - intros file o n. rewrite extractObjectClass_S.
    eapply afterP_bind with (Q := fun _ => True).
    + destruct (n =? "Grad")%string.
      * destruct (extractText unpack_d fuel file o) as [[v o']| |]; exact I.
      * exact I.
    + intros [o' c] _. apply IHprops. constructor.
  - intros file o i c ps Hps. rewrite forProperties_S.
    destruct (Int i <? c)%num; [|exact Hps].
    eapply afterP_bind; [apply IHprop|].
    intros [property newOffset] H. cbn [fst] in H.
    apply IHprops. apply Forall_app. split; [exact Hps|now constructor].
  - intros file o. rewrite extractList_S. apply IHitems. constructor.
  - intros file o i c ps Hps. rewrite forList_S.
    destruct (Int i <? c)%num; [|exact Hps].
    eapply afterP_bind; [apply IHvalue|].
    intros [property newOffset] [_ H]. cbn [fst] in H.
    apply IHitems. apply Forall_app. split; [exact Hps|].
    constructor; [|constructor].
    destruct (getOwn property (indexToString i)) as [t|] eqn:E; [|exact I].
    apply getOwn_In in E.
    rewrite Forall_forall in H. apply (H _ E).
Qed.

(** (X9) A property decoded by [extractProperty] or
    [extractPropertyValue] is an object with at most one key, and every
    [{type, value}] in it, at any depth of nested objects and lists, has
    as [type] one of the nine handled tags, the one that names the
    shape of its [value]; the five tolerated tags and the unknown ones
    never appear. *)
Theorem decoded_property_wellTagged (fuel : nat) (file : Buffer)
    (offset : number) (nameBuffer : Buffer) (property : Property double)
    (o' : number) :
  extractProperty unpack_d fuel file offset = Ok (property, o') \/
  extractPropertyValue unpack_d fuel file offset nameBuffer
  = Ok (property, o') ->
  (List.length property <= 1)%nat /\
  forall key type value,
    In (key, Typed type value) property ->
    tagMatches type value /\ wellTagged value /\
    typeHandlers type <> None.
Proof.
  intros Hrun.
  assert (Hok : propertyOk property).
  { destruct (decoder_wellTagged fuel) as (Hp & Hv & _).
    destruct Hrun as [Hrun|Hrun].
    - specialize (Hp file offset). now rewrite Hrun in Hp.
    - specialize (Hv file offset nameBuffer). now rewrite Hrun in Hv. }
  destruct Hok as [Hlen Hall]. split; [exact Hlen|].
  intros key type value Hin.
  rewrite Forall_forall in Hall. specialize (Hall _ Hin).
  cbn [snd typedOk] in Hall. destruct Hall as [Hm Hw].
  repeat split; trivial.
  destruct value; cbn [tagMatches] in Hm;
    try (subst type; discriminate).
  destruct Hm as [-> | ->]; discriminate.
Qed.

End TreeFacts.

Lemma decoded_property_wellTagged_witness :
  extractPropertyValue unpackBytes 9 holesBuffer (Int 4)
    (list_byte_of_string "Size")
  = Ok ([], Int 8) /\
  extractProperty unpackBytes 4 sizeBuffer (Int 0)
  = Ok ([("Size", Typed "long" (Number (Int 42)))], Int 16) /\
  tagMatches (double := Buffer) "long" (Number (Int 42)).
Proof.
  assert (Hrun : extractProperty unpackBytes 4 sizeBuffer (Int 0)
                 = Ok ([("Size", Typed "long" (Number (Int 42)))], Int 16))
    by reflexivity.
  split; [reflexivity|]. split; [exact Hrun|].
  apply (proj2 (decoded_property_wellTagged unpackBytes 4 sizeBuffer (Int 0)
                  [] _ _ (or_introl Hrun)) "Size").
  now left.
Defined.

(** ** Objects and their property counts *)

Section CountFacts.

Context {double : Type} (unpack_d : Buffer -> option double).

(** What the loop over [extractProperty] returns extends what it had
    collected by one property for each remaining index. *)
Lemma forProperties_length (fuel : nat) (file : Buffer) (offset : number)
    (i n : Z) (properties result : list (Property double)) (o' : number) :
  i <= n ->
  forProperties unpack_d fuel file offset i (Int n) properties
  = Ok (result, o') ->
  exists rest,
    result = (properties ++ rest)%list /\
    Z.of_nat (List.length rest) = n - i.
Proof.
  revert offset i properties.
  induction fuel as [|fuel IH]; intros offset i properties Hin Hrun;
    [discriminate|].
  rewrite forProperties_S in Hrun. cbn [Num.lt] in Hrun.
  destruct (Z.ltb_spec i n) as [Hlt|Hge].
  - destruct (extractProperty unpack_d fuel file offset)
      as [[property newOffset]| |]; try discriminate.
    cbn [bind] in Hrun.
    apply IH in Hrun; [|lia].
    destruct Hrun as [rest [-> Hlen]].
    exists (property :: rest). split.
    + now rewrite <- app_assoc.
    + cbn [List.length]. lia.
  - injection Hrun as <- <-. exists []. split.
    + now rewrite app_nil_r.
    + simpl. lia.
Qed.

Lemma forProperties_NaN (fuel : nat) (file : Buffer) (offset : number)
    (i : Z) (properties : list (Property double)) :
  forProperties unpack_d (S fuel) file offset i NaN properties
  = Ok (properties, offset).
Proof. reflexivity. Qed.

(** (X10) When [extractObjectClass] returns, the object named
    [Grad] has exactly 4 properties, whatever the buffer holds; any
    other object has as many properties as the count field that
    follows its class label says, and none when that field lies past
    the end of the buffer. *)
Theorem extractObjectClass_count (fuel : nat) (file : Buffer) (o : number)
    (name : string) (properties : list (Property double)) (o' : number) :
  extractObjectClass unpack_d fuel file o name = Ok (properties, o') ->
  (name = "Grad" -> List.length properties = 4%nat) /\
  (name <> "Grad" ->
   let countAt := snd (extractLabel file (o + 6)%num) in
   match parseInt16
           (toString_hex (subarray file countAt (countAt + 4)%num)) with
   | Int n => Z.of_nat (List.length properties) = n
   | NaN => properties = []
   end).
Proof.
  intros Hrun. destruct fuel as [|fuel]; [discriminate|].
  rewrite extractObjectClass_S in Hrun.
  split.
  - intros ->. cbn [String.eqb Ascii.eqb Bool.eqb] in Hrun.
    destruct (extractText unpack_d fuel file o) as [[text o1]| |];
      try discriminate.
    cbn [bind] in Hrun.
    destruct (forProperties_length _ _ _ 0 4 _ _ _ ltac:(lia) Hrun)
      as [rest [-> Hlen]].
    cbn [app]. lia.
  - intros Hname. cbv zeta.
    destruct (String.eqb_spec name "Grad") as [|_]; [contradiction|].
    cbn [bind] in Hrun.
    set (countAt := snd (extractLabel file (o + 6)%num)) in *.
    pose proof (parseInt16_lengthRead
                  (subarray file countAt (countAt + 4)%num)) as Hc.
    destruct (parseInt16 _) as [n|].
    + cbn [lengthRead] in Hc.
      destruct (forProperties_length _ _ _ 0 n _ _ _ Hc Hrun)
        as [rest [-> Hlen]].
      cbn [app]. lia.
    + destruct fuel as [|fuel]; [discriminate|].
      rewrite forProperties_NaN in Hrun. now injection Hrun as <- _.
Qed.


End CountFacts.

Lemma extractObjectClass_count_witness :
  extractObjectClass unpackBytes 9 objectBuffer (Int 0) "Brsh"
  = Ok ([[("Size", Typed "long" (Number (Int 42)))]; []], Int 42) /\
  "Brsh" <> "Grad" /\
  Z.of_nat
    (List.length
       [[("Size", Typed (double := Buffer) "long" (Number (Int 42)))]; []])
  = 2.
Proof.
  assert (Hrun : extractObjectClass unpackBytes 9 objectBuffer (Int 0) "Brsh"
                 = Ok ([[("Size", Typed "long" (Number (Int 42)))]; []],
                       Int 42)) by reflexivity.
  split; [exact Hrun|]. split; [discriminate|].
  exact (proj2 (extractObjectClass_count unpackBytes 9 objectBuffer (Int 0)
                  "Brsh" _ _ Hrun) ltac:(discriminate)).
Defined.

(** ** Tool names *)

Lemma afterLast_keeps (sep : ascii) (s cur : string) :
  ~ In sep (list_ascii_of_string s) -> afterLast sep cur s = cur.
Proof.
  revert cur. induction s as [|c s IH]; intros cur Hno; [reflexivity|].
  cbn [afterLast]. cbn [list_ascii_of_string] in Hno.
  destruct (Ascii.eqb_spec c sep) as [->|_].
  - exfalso. apply Hno. now left.
  - apply IH. intros H. apply Hno. now right.
Qed.

Lemma afterLast_cut (sep : ascii) (a b cur : string) :
  afterLast sep cur (a ++ String sep b) = afterLast sep b b.
Proof.
  revert cur. induction a as [|c a IH]; intros cur.
  - cbn [append afterLast]. now rewrite Ascii.eqb_refl.
  - cbn [append afterLast]. destruct (Ascii.eqb c sep); apply IH.
Qed.

Lemma afterLast_free (sep : ascii) (s cur : string) :
  ~ In sep (list_ascii_of_string cur) \/ In sep (list_ascii_of_string s) ->
  ~ In sep (list_ascii_of_string (afterLast sep cur s)).
Proof.
  revert cur. induction s as [|c s IH]; intros cur H.
  - destruct H as [H|[]]. exact H.
  - cbn [afterLast]. destruct (Ascii.eqb_spec c sep) as [->|Hne].
    + apply IH.
      destruct (in_dec ascii_dec sep (list_ascii_of_string s)); tauto.
    + apply IH. destruct H as [H|[H|H]]; [now left|congruence|now right].
Qed.

Lemma afterLast_chars (sep : ascii) (P : ascii -> Prop) (s cur : string) :
  Forall P (list_ascii_of_string cur) ->
  Forall P (list_ascii_of_string s) ->
  Forall P (list_ascii_of_string (afterLast sep cur s)).
Proof.
  revert cur. induction s as [|c s IH]; intros cur Hcur Hs; [exact Hcur|].
  cbn [afterLast]. cbn [list_ascii_of_string] in Hs.
  inversion Hs; subst.
  destruct (Ascii.eqb c sep); apply IH; assumption.
Qed.

(** (X12) [name.split("=").pop()]: the tool name kept is what follows
    the last ["="] of the raw name.  It never holds an ["="]; it is the
    raw name itself when that holds none; and for a raw name
    [a ++ "=" ++ b] where [b] holds none, it is [b]. *)
Theorem splitPop_after_last (s a b : string) :
  ~ In "="%char (list_ascii_of_string (splitPop s)) /\
  (~ In "="%char (list_ascii_of_string s) -> splitPop s = s) /\
  (~ In "="%char (list_ascii_of_string b) ->
   splitPop (a ++ String "=" b) = b).
Proof.
  unfold splitPop. split; [|split].
  - apply afterLast_free.
    destruct (in_dec ascii_dec "="%char (list_ascii_of_string s)); tauto.
  - apply afterLast_keeps.
  - intros Hb. rewrite afterLast_cut. now apply afterLast_keeps.
Qed.

Lemma splitPop_after_last_witness :
  ~ In "="%char (list_ascii_of_string "MyBrush") /\
  splitPop ("Default" ++ String "=" "MyBrush") = "MyBrush".
Proof.
  assert (H : ~ In "="%char (list_ascii_of_string "MyBrush")).
  { simpl. intros [H|[H|[H|[H|[H|[H|[H|[]]]]]]]]; discriminate H. }
  split; [exact H|].
  exact (proj2 (proj2 (splitPop_after_last "" "Default" "MyBrush")) H).
Defined.

(** ** The document *)

Lemma getOwn_None {A : Type} (obj : list (string * A)) (key : string) :
  getOwn obj key = None <-> ~ In key (map fst obj).
Proof.
  induction obj as [|[k v] obj IH]; simpl; [tauto|].
  destruct (String.eqb_spec k key) as [->|Hne].
  - split; [discriminate|]. intros H. exfalso. apply H. now left.
  - rewrite IH. split; [|tauto]. intros H [E|Hin]; [congruence|tauto].
Qed.

Lemma getOwn_app_new {A : Type} (obj : list (string * A)) (key : string)
    (v : A) :
  getOwn obj key = None -> getOwn (obj ++ [(key, v)]) key = Some v.
Proof.
  induction obj as [|[k x] obj IH]; simpl.
  - now rewrite String.eqb_refl.
  - destruct (k =? key)%string; [discriminate|exact IH].
Qed.

Section DocumentFacts.

Context {double : Type} (unpack_d : Buffer -> option double).

Lemma pushOwn_keys (tpl : TPLData double) (k : string) (t : ToolData double) :
  map fst (pushOwn tpl k t) = map fst tpl.
Proof.
  induction tpl as [|[k' tools] tpl IH]; [reflexivity|].
  cbn [pushOwn]. destruct (k' =? k)%string; cbn [map fst]; [reflexivity|].
  now rewrite IH.
Qed.

Lemma pushOwn_lookup (tpl : TPLData double) (k k' : string)
    (t : ToolData double) :
  getOwn (pushOwn tpl k t) k'
  = if (k =? k')%string
    then option_map (fun tools => tools ++ [t])%list (getOwn tpl k')
    else getOwn tpl k'.
Proof.
  induction tpl as [|[k0 tools] tpl IH].
  - cbn. now destruct (k =? k')%string.
  - cbn [pushOwn]. destruct (String.eqb_spec k0 k) as [->|Hne].
    + cbn [getOwn]. destruct (String.eqb_spec k k') as [->|Hne'].
      * reflexivity.
      * reflexivity.
    + cbn [getOwn]. rewrite IH.
      destruct (String.eqb_spec k0 k') as [->|Hne'].
      * destruct (String.eqb_spec k k'); [congruence|reflexivity].
      * reflexivity.
Qed.

(** [if (!tpl[k]) tpl[k] = []; ... tpl[k].push(t)] on a document that
    satisfies [documentOk]. *)
Lemma pushTool_documentOk (tpl tpl' : TPLData double) (k : string)
    (t : ToolData double) :
  documentOk tpl -> toolOk t ->
  pushTool (initToolType tpl k) k t = Ok tpl' ->
  documentOk tpl' /\ tpl' <> [] /\
  getOwn tpl' k
  = Some (match getOwn tpl k with Some l => l | None => [] end ++ [t])%list /\
  (forall k', k' <> k -> getOwn tpl' k' = getOwn tpl k') /\
  ~ In k inheritedKeys.
Proof.
  intros [Hnd Hall] Ht Hpush.
  unfold pushTool, initToolType in Hpush.
  assert (Hinh : forall tpl0 : TPLData double,
             Forall entryOk tpl0 -> In k (map fst tpl0) ->
             ~ In k inheritedKeys).
  { intros tpl0 H0 Hin. apply in_map_iff in Hin as [[k0 tools] [E Hin]].
    cbn in E. subst k0. rewrite Forall_forall in H0.
    apply (H0 _ Hin). }
  assert (Hfa : forall tpl0 : TPLData double,
             Forall entryOk tpl0 -> Forall entryOk (pushOwn tpl0 k t)).
  { intros tpl0 H0. induction H0 as [|[k0 tools] tpl0 Hhd Htl IH];
      [constructor|].
    cbn [pushOwn]. destruct (String.eqb_spec k0 k) as [->|Hne].
    - constructor; [|exact Htl].
      destruct Hhd as (Hne & Hni & Htools). cbn [fst snd] in *.
      repeat split; trivial.
      + intros E. apply app_eq_nil in E as [_ E]. discriminate.
      + apply Forall_app. split; [exact Htools|now constructor].
    - constructor; [exact Hhd|exact IH]. }
  assert (Hne : forall tpl0 : TPLData double,
             In k (map fst tpl0) -> pushOwn tpl0 k t <> []).
  { intros [|[k0 tools] tpl0] Hin; [contradiction|].
    cbn [pushOwn]. destruct (k0 =? k)%string; discriminate. }
  destruct (getOwn tpl k) as [l|] eqn:Eg.
  - rewrite Eg in Hpush. injection Hpush as <-.
    assert (Hin : In k (map fst tpl)).
    { destruct (in_dec string_dec k (map fst tpl)) as [H|H]; trivial.
      apply getOwn_None in H. congruence. }
    split; [split|].
    + now rewrite pushOwn_keys.
    + now apply Hfa.
    + split; [now apply Hne|]. split; [|split].
      * rewrite pushOwn_lookup, String.eqb_refl, Eg. reflexivity.
      * intros k' Hk'. rewrite pushOwn_lookup.
        destruct (String.eqb_spec k k'); [congruence|reflexivity].
      * now apply (Hinh tpl).
  - destruct (existsb (String.eqb k) inheritedKeys) eqn:Ei.
    + rewrite Eg in Hpush. discriminate.
    + assert (Hni : ~ In k inheritedKeys).
      { intros Hin. apply Bool.not_true_iff_false in Ei. apply Ei.
        apply existsb_exists. exists k. split; [exact Hin|].
        apply String.eqb_refl. }
      rewrite (getOwn_app_new tpl k [] Eg) in Hpush.
      injection Hpush as <-.
      assert (Hno : ~ In k (map fst tpl)) by now apply getOwn_None.
      assert (Epush : pushOwn (tpl ++ [(k, [])]) k t = (tpl ++ [(k, [t])])%list).
      { clear - Hno. induction tpl as [|[k0 tools] tpl IH].
        - cbn. now rewrite String.eqb_refl.
        - cbn [app pushOwn]. destruct (String.eqb_spec k0 k) as [->|Hne].
          + exfalso. apply Hno. now left.
          + rewrite IH; [reflexivity|]. intros H. apply Hno. now right. }
      rewrite Epush. split; [split|].
      * rewrite map_app. cbn [map fst].
        rewrite <- (rev_involutive (map fst tpl ++ [k])).
        apply NoDup_rev. rewrite rev_app_distr. cbn [rev app].
        constructor; [now rewrite <- in_rev|now apply NoDup_rev].
      * apply Forall_app. split; [exact Hall|].
        constructor; [|constructor].
        repeat split; cbn [fst snd]; trivial; [discriminate|].
        now constructor.
      * split; [intros E; apply app_eq_nil in E as [_ E]; discriminate|].
        split; [|split; [|exact Hni]].
        -- apply getOwn_app_new. exact Eg.
        -- intros k' Hk'. clear - Hk'.
           induction tpl as [|[k0 tools] tpl IH].
           ++ cbn. destruct (String.eqb_spec k k'); [congruence|reflexivity].
           ++ cbn [app getOwn]. now rewrite IH.
Qed.


Lemma pushTool_inherited (tpl : TPLData double) (k : string)
    (t : ToolData double) :
  In k inheritedKeys -> getOwn tpl k = None ->
  pushTool (initToolType tpl k) k t = Throw.
Proof.
  intros Hin Eg. unfold pushTool, initToolType. rewrite Eg.
  assert (Ei : existsb (String.eqb k) inheritedKeys = true).
  { apply existsb_exists. exists k. split; [exact Hin|].
    apply String.eqb_refl. }
  rewrite Ei, Eg. reflexivity.
Qed.

(** (X13) Filing a tool under its type, [if (!tpl[k]) tpl[k] = [];
    tpl[k].push(t)]: when [k] is not a name inherited from
    [Object.prototype], the tool is appended to the tools already under
    [k] (to none, if [k] is new), and every other key keeps its tools;
    when [k] is an inherited name that the document does not hold, the
    push throws. *)
Theorem pushTool_lookup (tpl : TPLData double) (k : string)
    (t : ToolData double) :
  (~ In k inheritedKeys ->
   exists tpl',
     pushTool (initToolType tpl k) k t = Ok tpl' /\
     getOwn tpl' k
     = Some (match getOwn tpl k with Some l => l | None => [] end ++ [t])%list
     /\
     forall k', k' <> k -> getOwn tpl' k' = getOwn tpl k') /\
  (In k inheritedKeys -> getOwn tpl k = None ->
   pushTool (initToolType tpl k) k t = Throw).
Proof.
  split.
  - intros Hni. unfold pushTool, initToolType.
    assert (Ei : existsb (String.eqb k) inheritedKeys = false).
    { apply Bool.not_true_iff_false. intros H.
      apply existsb_exists in H as [x [Hin E]].
      apply String.eqb_eq in E. now subst x. }
    destruct (getOwn tpl k) as [l|] eqn:Eg.
    + rewrite Eg. eexists. split; [reflexivity|]. split.
      * rewrite pushOwn_lookup, String.eqb_refl, Eg. reflexivity.
      * intros k' Hk'. rewrite pushOwn_lookup.
        destruct (String.eqb_spec k k'); [congruence|reflexivity].
    + rewrite Ei, (getOwn_app_new tpl k [] Eg).
      eexists. split; [reflexivity|]. split.
      * rewrite pushOwn_lookup, String.eqb_refl.
        now rewrite (getOwn_app_new tpl k [] Eg).
      * intros k' Hk'. rewrite pushOwn_lookup.
        destruct (String.eqb_spec k k'); [congruence|].
        clear - Hk'. induction tpl as [|[k0 tools] tpl IH].
        -- cbn. destruct (String.eqb_spec k k'); [congruence|reflexivity].
        -- cbn [app getOwn]. now rewrite IH.
  - apply pushTool_inherited.
Qed.

(** The loop of [readTool], one turn unfolded. *)
Lemma whileTool_S (fuel : nat) (file : Buffer) (offset : number)
    (tpl : TPLData double) :
  whileTool unpack_d (S fuel) file offset tpl
  = '(toolName, newOffset) <- extractText unpack_d fuel file offset ;;
    let '(toolTypeBuffer, newOffset2) :=
      extractLabel file (newOffset + 10)%num in
    '(properties, offset3) <-
      forProperties unpack_d fuel file (newOffset2 + 4)%num 0
        (parseInt16
           (toString_hex (subarray file newOffset2 (newOffset2 + 4)%num)))
        [] ;;
    tpl' <- pushTool
              (initToolType tpl (trim (toString_ascii toolTypeBuffer)))
              (trim (toString_ascii toolTypeBuffer))
              (mkToolData (splitPop toolName) properties) ;;
    if negb (Nat.eqb
               (List.length (subarray file offset3 (offset3 + 4)%num)) 4)
    then Ok (tpl', offset3)
    else whileTool unpack_d fuel file offset3 tpl'.
Proof. reflexivity. Qed.

Lemma extractText_chars (fuel : nat) (file : Buffer) (offset : number)
    (text : string) (o' : number) :
  extractText unpack_d fuel file offset = Ok (text, o') ->
  Forall textChar (list_ascii_of_string text).
Proof.
  intros Hrun. destruct fuel as [|fuel]; [discriminate|].
  rewrite extractText_S in Hrun.
  destruct (whileText unpack_d fuel file _ _) as [[l o1]| |];
    try discriminate.
  cbn [bind] in Hrun. injection Hrun as <- _.
  apply Forall_and.
  - apply removeNul_clean.
  - apply removeNul_7bit, toString_ascii_7bit.
Qed.

(** What the loop of [readTool] returns, from a document that
    satisfies [documentOk]. *)
Lemma whileTool_returns (fuel : nat) (file : Buffer) (offset : number)
    (tpl tpl' : TPLData double) (o' : number) :
  documentOk tpl ->
  whileTool unpack_d fuel file offset tpl = Ok (tpl', o') ->
  documentOk tpl' /\ tpl' <> [] /\
  List.length (subarray file o' (o' + 4)%num) <> 4%nat /\
  past offset o'.
Proof.
  revert offset tpl.
  induction fuel as [|fuel IH]; intros offset tpl Hok Hrun; [discriminate|].
  rewrite whileTool_S in Hrun.
  pose proof (proj1 (proj2 (proj2 (proj2 (proj2 (proj2
                (decoder_advances unpack_d fuel)))))) file offset) as Htext.
  destruct (extractText unpack_d fuel file offset)
    as [[toolName newOffset]| |] eqn:Et; try discriminate.
  cbn [bind] in Hrun. cbn in Htext.
  pose proof (extractLabel_past file (newOffset + 10)%num) as Hlabel.
  destruct (extractLabel file (newOffset + 10)%num)
    as [toolTypeBuffer newOffset2].
  cbn [snd] in Hlabel.
  set (count := parseInt16 _) in Hrun.
  pose proof (proj1 (proj2 (proj2 (proj2 (proj2
                (decoder_advances unpack_d fuel))))) file
                (newOffset2 + 4)%num 0 count []) as Hprops.
  pose proof (proj1 (proj2 (proj2 (proj2 (proj2
                (decoder_wellTagged unpack_d fuel))))) file
                (newOffset2 + 4)%num 0 count [] (Forall_nil _)) as Htag.
  destruct (forProperties unpack_d fuel file (newOffset2 + 4)%num 0 count [])
    as [[properties offset3]| |]; try discriminate.
  cbn [bind] in Hrun. cbn in Hprops, Htag.
  destruct (pushTool _ _ _) as [tpl1| |] eqn:Epush; try discriminate.
  cbn [bind] in Hrun.
  assert (Htool : toolOk (mkToolData (splitPop toolName) properties)).
  { pose proof (extractText_chars _ _ _ _ _ Et) as Hchars.
    repeat split; trivial.
    - unfold splitPop. apply afterLast_free.
      destruct (in_dec ascii_dec "="%char (list_ascii_of_string toolName));
        tauto.
    - unfold splitPop. now apply afterLast_chars. }
  destruct (pushTool_documentOk _ _ _ _ Hok Htool Epush)
    as (Hok1 & Hne1 & _).
  assert (Hadv : past offset offset3).
  { eapply past_notBefore_trans; [exact Htext|].
    eapply notBefore_trans; [apply (notBefore_add newOffset 10); simpl; lia|].
    eapply notBefore_trans; [apply past_notBefore, Hlabel|].
    eapply notBefore_trans;
      [apply (notBefore_add newOffset2 4); simpl; lia|exact Hprops]. }
  destruct (Nat.eqb_spec (List.length (subarray file offset3 (offset3 + 4)%num))
              4) as [E4|E4]; cbn [negb] in Hrun.
  - destruct (IH _ _ Hok1 Hrun) as (Hok' & Hne' & Hstop & Hpast).
    split; [exact Hok'|]. split; [exact Hne'|]. split; [exact Hstop|].
    eapply notBefore_past_trans; [apply past_notBefore, Hadv|exact Hpast].
  - injection Hrun as <- <-.
    split; [exact Hok1|]. split; [exact Hne1|]. split; [exact E4|exact Hadv].
Qed.

Lemma documentOk_nil : documentOk (@nil (string * list (ToolData double))).
Proof. split; constructor. Qed.

(** (X14) The document that [readTool] returns is never empty: its
    keys are pairwise distinct, none of them is a name inherited from
    [Object.prototype], and every key holds at least one tool. *)
Theorem readTool_document (fuel : nat) (file : Buffer) (offset : number)
    (tpl : TPLData double) (o' : number) :
  readTool unpack_d fuel file offset = Ok (tpl, o') ->
  tpl <> [] /\ NoDup (map fst tpl) /\
  forall k tools,
    In (k, tools) tpl -> tools <> [] /\ ~ In k inheritedKeys.
Proof.
  intros Hrun.
  destruct (whileTool_returns _ _ _ _ _ _ documentOk_nil Hrun)
    as ([Hnd Hall] & Hne & _).
  split; [exact Hne|]. split; [exact Hnd|].
  intros k tools Hin. rewrite Forall_forall in Hall.
  destruct (Hall _ Hin) as (H1 & H2 & _). now split.
Qed.

(** (X15) Every tool of the document that [readTool] returns has a
    name without ["="], without NUL and of 7-bit characters only, and
    its properties are well tagged: objects of at most one key whose
    [{type, value}], at any depth, carry one of the nine handled tags,
    the one that names the shape of the value. *)
Theorem readTool_tools (fuel : nat) (file : Buffer) (offset : number)
    (tpl : TPLData double) (o' : number) :
  readTool unpack_d fuel file offset = Ok (tpl, o') ->
  forall k tools name properties,
    In (k, tools) tpl -> In (mkToolData name properties) tools ->
    ~ In "="%char (list_ascii_of_string name) /\
    Forall textChar (list_ascii_of_string name) /\
    forall property,
      In property properties ->
      (List.length property <= 1)%nat /\
      forall key type value,
        In (key, Typed type value) property ->
        tagMatches type value /\ wellTagged value.
Proof.
  intros Hrun k tools name properties Hin Htool.
  destruct (whileTool_returns _ _ _ _ _ _ documentOk_nil Hrun)
    as ([_ Hall] & _).
  rewrite Forall_forall in Hall.
  destruct (Hall _ Hin) as (_ & _ & Htools). cbn [snd] in Htools.
  rewrite Forall_forall in Htools.
  destruct (Htools _ Htool) as (Heq & Hchars & Hprops).
  split; [exact Heq|]. split; [exact Hchars|].
  intros property Hp. rewrite Forall_forall in Hprops.
  destruct (Hprops _ Hp) as [Hlen Hentries].
  split; [exact Hlen|].
  intros key type value He. rewrite Forall_forall in Hentries.
  exact (Hentries _ He).
Qed.

(** (X16) [readTool] started at a non-negative offset stops only
    where fewer than 4 bytes are left: the offset it returns is [NaN],
    or it is greater than the one it started from and less than 4
    bytes before the end of the buffer, or past it. *)
Theorem readTool_stops_at_end (fuel : nat) (file : Buffer) (o : Z)
    (tpl : TPLData double) (o' : number) :
  0 <= o ->
  readTool unpack_d fuel file (Int o) = Ok (tpl, o') ->
  o' = NaN \/
  exists z, o' = Int z /\ o < z /\ Z.of_nat (List.length file) < z + 4.
Proof.
  intros Ho Hrun.
  destruct (whileTool_returns _ _ _ _ _ _ documentOk_nil Hrun)
    as (_ & _ & Hstop & Hpast).
  destruct o' as [z|]; [right|now left].
  cbn in Hpast. exists z. split; [reflexivity|]. split; [exact Hpast|].
  destruct (Z.le_gt_cases (z + 4) (Z.of_nat (List.length file)))
    as [Hfit|Hfit]; [|lia].
  exfalso. apply Hstop. rewrite add_Int.
  destruct (slice_inside file z 4 ltac:(lia) ltac:(lia) Hfit) as [_ ->].
  reflexivity.
Qed.

(** (X17) A tool whose type label, trimmed, is a name that objects
    inherit from [Object.prototype] ([toString], [constructor],
    [__proto__], ...) makes [readTool] throw once the name and the
    properties of the tool are decoded: [tpl[toolType]] is then not an
    array. *)
Theorem readTool_inherited_type (fuel : nat) (file : Buffer)
    (offset : number) (toolName : string) (o1 o3 : number)
    (properties : list (Property double)) :
  extractText unpack_d fuel file offset = Ok (toolName, o1) ->
  In (trim (toString_ascii (fst (extractLabel file (o1 + 10)%num))))
     inheritedKeys ->
  (let countAt := snd (extractLabel file (o1 + 10)%num) in
   forProperties unpack_d fuel file (countAt + 4)%num 0
     (parseInt16 (toString_hex (subarray file countAt (countAt + 4)%num))) []
   = Ok (properties, o3)) ->
  readTool unpack_d (S fuel) file offset = Throw.
Proof.
  intros Htext Hin Hprops. unfold readTool.
  rewrite whileTool_S, Htext. cbn [bind].
  destruct (extractLabel file (o1 + 10)%num) as [toolTypeBuffer o2].
  cbn [fst snd] in *. cbv zeta in Hprops. rewrite Hprops. cbn [bind].
  rewrite (pushTool_inherited [] _ _ Hin eq_refl). reflexivity.
Qed.

End DocumentFacts.

Lemma pushTool_lookup_witness :
  ~ In "Brsh" inheritedKeys /\
  In "toString" inheritedKeys /\
  pushTool (initToolType [("Ersr", [mkToolData (double := Buffer) "a" []])]
              "toString")
    "toString" (mkToolData "b" [])
  = Throw /\
  exists tpl',
    pushTool (initToolType [("Ersr", [mkToolData (double := Buffer) "a" []])]
                "Brsh")
      "Brsh" (mkToolData "b" [])
    = Ok tpl' /\
    getOwn tpl' "Brsh" = Some [mkToolData "b" []].
Proof.
  assert (Hno : ~ In "Brsh" inheritedKeys).
  { simpl. intros H.
    repeat (destruct H as [H|H]; [discriminate H|]). exact H. }
  assert (Hin : In "toString" inheritedKeys) by (simpl; tauto).
  split; [exact Hno|]. split; [exact Hin|]. split.
  - exact (proj2 (pushTool_lookup
                    [("Ersr", [mkToolData (double := Buffer) "a" []])]
                    "toString" (mkToolData "b" [])) Hin eq_refl).
  - destruct (proj1 (pushTool_lookup
                       [("Ersr", [mkToolData (double := Buffer) "a" []])]
                       "Brsh" (mkToolData "b" [])) Hno)
      as [tpl' [Hpush [Hget _]]].
    exists tpl'. split; [exact Hpush|exact Hget].
Defined.

Lemma readTool_document_witness :
  readTool unpackBytes 5 minimalBuffer (Int 32)
  = Ok ([("Brsh",
          [mkToolData "MyBrush"
             [[("Size", Typed "long" (Number (Int 42)))]]])], Int 104) /\
  NoDup ["Brsh"].
Proof.
  assert (Hrun : readTool unpackBytes 5 minimalBuffer (Int 32)
                 = Ok ([("Brsh",
                         [mkToolData "MyBrush"
                            [[("Size", Typed "long" (Number (Int 42)))]]])],
                       Int 104)) by reflexivity.
  split; [exact Hrun|].
  exact (proj1 (proj2 (readTool_document unpackBytes 5 minimalBuffer (Int 32)
                         _ _ Hrun))).
Defined.

Lemma readTool_tools_witness :
  readTool unpackBytes 5 minimalBuffer (Int 32)
  = Ok ([("Brsh",
          [mkToolData "MyBrush"
             [[("Size", Typed "long" (Number (Int 42)))]]])], Int 104) /\
  ~ In "="%char (list_ascii_of_string "MyBrush").
Proof.
  assert (Hrun : readTool unpackBytes 5 minimalBuffer (Int 32)
                 = Ok ([("Brsh",
                         [mkToolData "MyBrush"
                            [[("Size", Typed "long" (Number (Int 42)))]]])],
                       Int 104)) by reflexivity.
  split; [exact Hrun|].
  exact (proj1 (readTool_tools unpackBytes 5 minimalBuffer (Int 32) _ _ Hrun
                  "Brsh" _ "MyBrush" _
                  (or_introl eq_refl) (or_introl eq_refl))).
Defined.

Lemma readTool_stops_at_end_witness :
  0 <= 32 /\
  readTool unpackBytes 5 minimalBuffer (Int 32)
  = Ok ([("Brsh",
          [mkToolData "MyBrush"
             [[("Size", Typed "long" (Number (Int 42)))]]])], Int 104) /\
  (Int 104 = NaN \/
   exists z, Int 104 = Int z /\ 32 < z /\
             Z.of_nat (List.length minimalBuffer) < z + 4).
Proof.
  assert (Hrun : readTool unpackBytes 5 minimalBuffer (Int 32)
                 = Ok ([("Brsh",
                         [mkToolData "MyBrush"
                            [[("Size", Typed "long" (Number (Int 42)))]]])],
                       Int 104)) by reflexivity.
  split; [lia|]. split; [exact Hrun|].
  exact (readTool_stops_at_end unpackBytes 5 minimalBuffer 32 _ _
           ltac:(lia) Hrun).
Defined.

Lemma readTool_inherited_type_witness :
  extractText unpackBytes 3 inheritedTypeBuffer (Int 0) = Ok ("T", Int 6) /\
  In (trim (toString_ascii
              (fst (extractLabel inheritedTypeBuffer (Int 6 + 10)%num))))
     inheritedKeys /\
  readTool unpackBytes 4 inheritedTypeBuffer (Int 0) = Throw.
Proof.
  assert (Hin : In (trim (toString_ascii
                      (fst (extractLabel inheritedTypeBuffer (Int 6 + 10)%num))))
                   inheritedKeys) by (simpl; tauto).
  split; [reflexivity|]. split; [exact Hin|].
  exact (readTool_inherited_type unpackBytes 3 inheritedTypeBuffer (Int 0)
           "T" (Int 6) (Int 32) [] eq_refl Hin eq_refl).
Defined.

(** ** Files without tools *)

Lemma toLowerCase_length (s : string) :
  String.length (toLowerCase s) = String.length s.
Proof. induction s as [|c s IH]; simpl; [reflexivity|now rewrite IH]. Qed.

Lemma subarray_nothing (file : Buffer) : subarray file NaN NaN = [].
Proof. reflexivity. Qed.

Section EmptyFacts.

Context {double : Type} (unpack_d : Buffer -> option double).

(** (X18) [readTpl] returns the empty document, without decoding
    anything, for every file that does not hold the marker [8BIMtptp]
    and for every file shorter than 16 bytes. *)
Theorem readTpl_without_section (file : Buffer) (fuel : nat) :
  (forall i, ~ occursAt file i) \/ (List.length file < 16)%nat ->
  readTpl unpack_d fuel file = Ok [].
Proof.
  intros [Hnone|Hshort]; unfold readTpl.
  - destruct (validateTplHeader file (Int 0)) as [[|] offset];
      [|reflexivity].
    cbn [negb].
    destruct (lastIndexOf_marker file) as [[Hr _]|[k [_ [Hk _]]]].
    + unfold moveToToolDataSection. rewrite Hr. reflexivity.
    + now apply Hnone in Hk.
  - rewrite validateTplHeader_0.
    destruct (negb (_ =? "8btp")%string); [reflexivity|].
    destruct (String.eqb_spec
                (toLowerCase (toString_ascii (firstn 4 (skipn 12 file))))
                "8bim") as [E|_]; [|reflexivity].
    apply (f_equal String.length) in E.
    rewrite toLowerCase_length, toString_ascii_length in E.
    rewrite length_firstn, length_skipn in E.
    change (String.length "8bim") with 4%nat in E. lia.
Qed.

(** (X19) A file with a valid header whose tool section is empty
    (the marker lies 16 bytes or less before the end) does not decode
    to the empty document: [readTool] decodes one tool out of nothing,
    and [readTpl] returns [{ "": [ { name: "", properties: [] } ] }]. *)
Theorem readTpl_empty_section (file : Buffer) (p : Z) (k : nat) :
  fst (validateTplHeader file (Int 0)) = true ->
  moveToToolDataSection file = (true, Int p) ->
  Z.of_nat (List.length file) <= p ->
  readTpl unpack_d (3 + k) file = Ok [("", [mkToolData "" []])].
Proof.
  intros Hvalid Hmove Hend. unfold readTpl.
  destruct (validateTplHeader file (Int 0)) as [isValid offset].
  cbn [fst] in Hvalid. subst isValid. rewrite Hmove. cbn [negb].
  unfold readTool. cbn [Nat.add].
  rewrite whileTool_S, extractText_S.
  rewrite (subarray_past_end file p) by lia.
  cbn [toString_hex parseInt16 whileText Num.strictEq bind].
  rewrite add_Int, (subarray_past_end file (p + 4)) by lia.
  cbn [toString_hex fromHex toString_ascii map string_of_list_ascii removeNul
       Num.mul Num.add bind].
  unfold extractLabel. rewrite !subarray_nothing.
  cbn [toString_hex parseInt16 Num.strictEq Num.add].
  rewrite !subarray_nothing.
  reflexivity.
Qed.

End EmptyFacts.

Lemma readTpl_without_section_witness :
  ((forall i, ~ occursAt plainHeader i)
   \/ (List.length plainHeader < 16)%nat) /\
  readTpl unpackBytes 7 plainHeader = Ok [].
Proof.
  assert (H : (forall i, ~ occursAt plainHeader i)
              \/ (List.length plainHeader < 16)%nat).
  { left. intros i Hi. apply occursAt_scan in Hi. vm_compute in Hi. exact Hi. }
  split; [exact H|].
  exact (readTpl_without_section unpackBytes plainHeader 7 H).
Defined.

Lemma readTpl_empty_section_witness :
  fst (validateTplHeader emptySectionBuffer (Int 0)) = true /\
  moveToToolDataSection emptySectionBuffer = (true, Int 28) /\
  Z.of_nat (List.length emptySectionBuffer) <= 28 /\
  readTpl unpackBytes 3 emptySectionBuffer = Ok [("", [mkToolData "" []])].
Proof.
  split; [reflexivity|]. split; [reflexivity|]. split; [simpl; lia|].
  exact (readTpl_empty_section unpackBytes emptySectionBuffer 28 0
           eq_refl eq_refl ltac:(simpl; lia)).
Defined.
